(** * Adafruit_MPU6050: a shallow embedding of the I2C driver

    The driver of [Adafruit_MPU6050.cpp] is embedded as a state-passing
    program over an abstract I2C transport.  Machine integers are [Z] with
    the wrap-around written out, single and double precision numbers are
    the IEEE-754 values of [SpecFloat], and the busy-wait loop of [_init]
    takes fuel.

    The first part is the model: integers and floating point, the
    transport, the declarations the driver takes from its headers, the
    register layer, the driver itself and a chip to run it against.  The
    second part names what the properties speak of.  The third part proves
    the properties of the specification; the fourth proves what else the
    code shows: the record [begin] and [read] leave on the bus, the decoding
    of the burst, the scaling of the rates, the descriptors of [getSensor]. *)

From Stdlib Require Import ZArith List Bool Lia QArith Qabs.
From Stdlib Require Import Floats.SpecFloat.
From Stdlib Require Floats Uint63.
From Stdlib Require Ascii String.
Import ListNotations.
Local Open Scope Z_scope.

(** * Part I: the model *)

(** ** Fixed-width integers *)
Module Ints.

Definition wrap_unsigned (w x : Z) : Z := x mod 2 ^ w.

Definition wrap_signed (w x : Z) : Z :=
  (x + 2 ^ (w - 1)) mod 2 ^ w - 2 ^ (w - 1).

Definition uint8_t : Z -> Z := wrap_unsigned 8.

Definition uint32_t : Z -> Z := wrap_unsigned 32.

Definition int16_t : Z -> Z := wrap_signed 16.

Definition int32_t : Z -> Z := wrap_signed 32.

Definition INT16_MIN : Z := -32768.

Definition INT16_MAX : Z := 32767.

Definition INT32_MIN : Z := -2147483648.

Definition INT32_MAX : Z := 2147483647.

Definition in_int16 (x : Z) : Prop := INT16_MIN <= x <= INT16_MAX.

Definition in_int32 (x : Z) : Prop := INT32_MIN <= x <= INT32_MAX.

End Ints.

(** ** IEEE-754 binary floating point, after [SpecFloat] *)
Module Float.

Record format : Type := { prec : Z; emax : Z }.

Definition binary32 : format := {| prec := 24; emax := 128 |}.

Definition binary64 : format := {| prec := 53; emax := 1024 |}.

(** Conversion of an integer, rounding to nearest even. *)
Definition of_Z (f : format) (n : Z) : spec_float :=
  binary_normalize (prec f) (emax f) n 0 false.

(** Conversion of a value of another format, rounding to nearest even. *)
Definition convert (f : format) (x : spec_float) : spec_float :=
  match x with
  | S754_finite s m e => binary_round (prec f) (emax f) s m e
  | _ => x
  end.

Definition add (f : format) : spec_float -> spec_float -> spec_float :=
  SFadd (prec f) (emax f).

Definition mul (f : format) : spec_float -> spec_float -> spec_float :=
  SFmul (prec f) (emax f).

Definition div (f : format) : spec_float -> spec_float -> spec_float :=
  SFdiv (prec f) (emax f).

(** A decimal literal [num/den] whose numerator and denominator are both
    representable: the correctly rounded quotient is the literal's value. *)
Definition literal (f : format) (num den : Z) : spec_float :=
  div f (of_Z f num) (of_Z f den).

Definition zero : spec_float := S754_zero false.

Definition is_finite (x : spec_float) : bool :=
  match x with
  | S754_zero _ | S754_finite _ _ _ => true
  | _ => false
  end.

(** The rational a finite value denotes (0 for infinities and NaN). *)
Definition to_Q (x : spec_float) : Q :=
  match x with
  | S754_finite s m e =>
      let n := if s then Z.neg m else Z.pos m in
      match e with
      | Z.neg p => n # (2 ^ p)
      | _ => (n * 2 ^ e) # 1
      end
  | _ => 0%Q
  end.

End Float.

(** ** The I2C transport

    The wire, the chip behind it and the passing of time are the
    environment of the driver: a state [Bus] and the four things the driver
    can do to it.  A transaction reports failure ([false], [None]) as the
    transport of the source does. *)
Record Transport : Type := {
  Bus : Type;
  hw_begin : Z -> Bus -> bool * Bus;
  hw_write : Z -> list Z -> Bus -> bool * Bus;
  hw_write_then_read : Z -> list Z -> nat -> Bus -> option (list Z) * Bus;
  hw_delay : Z -> Bus -> Bus
}.

(** What was done on the bus, in the order it was done. *)
Inductive BusEvent : Type :=
| EvBegin (addr : Z) (ok : bool)
| EvWrite (addr : Z) (bytes : list Z) (ok : bool)
| EvRead (addr : Z) (reg : list Z) (len : nat) (res : option (list Z))
| EvDelay (ms : Z).

(** ** Declarations of [Adafruit_MPU6050.h]

    Modelled from the spec: the header [Adafruit_MPU6050.h] is not among the
    sources.  Its register addresses, the device identifier and the four
    values of [mpu6050_range_t] are taken as parameters; the spec names them
    (WHO_AM_I, PWR_MGMT_1, SMPLRT_DIV, CONFIG, GYRO_CONFIG, ACCEL_CONFIG,
    ACCEL_OUT-base, the range settings) without giving their values. *)
Class Header : Type := {
  MPU6050_WHO_AM_I : Z;
  MPU6050_DEVICE_ID : Z;
  MPU6050_PWR_MGMT_1 : Z;
  MPU6050_SMPLRT_DIV : Z;
  MPU6050_CONFIG : Z;
  MPU6050_GYRO_CONFIG : Z;
  MPU6050_ACCEL_CONFIG : Z;
  MPU6050_ACCEL_OUT : Z;
  MPU6050_RANGE_2_G : Z;
  MPU6050_RANGE_4_G : Z;
  MPU6050_RANGE_8_G : Z;
  MPU6050_RANGE_16_G : Z
}.

(** [mpu6050_range_t] is a C enumeration: an integer. *)
Definition mpu6050_range_t : Type := Z.

(** The four range settings. *)
Definition valid_ranges `{Header} : list mpu6050_range_t :=
[MPU6050_RANGE_2_G; MPU6050_RANGE_4_G; MPU6050_RANGE_8_G; MPU6050_RANGE_16_G].

(** The four enumerators fit the 2-bit register field and are distinct. *)
Definition ranges_fit_field `{Header} : Prop :=
Forall (fun r => 0 <= r < 4) valid_ranges /\ NoDup valid_ranges.

(** The values of the chip's register map. *)
Definition datasheet : Header := {|
  MPU6050_WHO_AM_I := 0x75;
  MPU6050_DEVICE_ID := 0x68;
  MPU6050_PWR_MGMT_1 := 0x6B;
  MPU6050_SMPLRT_DIV := 0x19;
  MPU6050_CONFIG := 0x1A;
  MPU6050_GYRO_CONFIG := 0x1B;
  MPU6050_ACCEL_CONFIG := 0x1C;
  MPU6050_ACCEL_OUT := 0x3B;
  MPU6050_RANGE_2_G := 0;
  MPU6050_RANGE_4_G := 1;
  MPU6050_RANGE_8_G := 2;
  MPU6050_RANGE_16_G := 3
|}.

(** Modelled from the spec: the members of the class are declared in the
    missing header.  They are the device handle with its three identifiers,
    the Raw Sample (seven signed 16-bit integers) and the Scaled Sample
    (floating-point values) of the spec's data model. *)
Record Adafruit_MPU6050 : Type := {
  i2c_dev : option Z;
  _sensorid_accel : Z;
  _sensorid_gyro : Z;
  _sensorid_temp : Z;
  rawAccX : Z;
  rawAccY : Z;
  rawAccZ : Z;
  rawTemp : Z;
  rawGyroX : Z;
  rawGyroY : Z;
  rawGyroZ : Z;
  temperature : spec_float;
  accX : spec_float;
  accY : spec_float;
  accZ : spec_float;
  gyroX : spec_float;
  gyroY : spec_float;
  gyroZ : spec_float
}.


(** Zero-filled storage: that of an object with static storage duration (a
    global driver object), which is cleared before its constructor runs.
    It is one storage among others, a concrete input of the runs below. *)
Definition zero_initialized : Adafruit_MPU6050 := {|
  i2c_dev := None;
  _sensorid_accel := 0;
  _sensorid_gyro := 0;
  _sensorid_temp := 0;
  rawAccX := 0; rawAccY := 0; rawAccZ := 0;
  rawTemp := 0;
  rawGyroX := 0; rawGyroY := 0; rawGyroZ := 0;
  temperature := Float.zero;
  accX := Float.zero; accY := Float.zero; accZ := Float.zero;
  gyroX := Float.zero; gyroY := Float.zero; gyroZ := Float.zero
|}.


(** Assignments to the members, a group at a time. *)
Definition with_i2c_dev (dev : option Z) (d : Adafruit_MPU6050) : Adafruit_MPU6050 := {|
  i2c_dev := dev;
  _sensorid_accel := _sensorid_accel d;
  _sensorid_gyro := _sensorid_gyro d;
  _sensorid_temp := _sensorid_temp d;
  rawAccX := rawAccX d; rawAccY := rawAccY d; rawAccZ := rawAccZ d;
  rawTemp := rawTemp d;
  rawGyroX := rawGyroX d; rawGyroY := rawGyroY d; rawGyroZ := rawGyroZ d;
  temperature := temperature d;
  accX := accX d; accY := accY d; accZ := accZ d;
  gyroX := gyroX d; gyroY := gyroY d; gyroZ := gyroZ d
|}.

Definition with_sensorids (accel gyro temp : Z) (d : Adafruit_MPU6050)
  : Adafruit_MPU6050 := {|
  i2c_dev := i2c_dev d;
  _sensorid_accel := accel;
  _sensorid_gyro := gyro;
  _sensorid_temp := temp;
  rawAccX := rawAccX d; rawAccY := rawAccY d; rawAccZ := rawAccZ d;
  rawTemp := rawTemp d;
  rawGyroX := rawGyroX d; rawGyroY := rawGyroY d; rawGyroZ := rawGyroZ d;
  temperature := temperature d;
  accX := accX d; accY := accY d; accZ := accZ d;
  gyroX := gyroX d; gyroY := gyroY d; gyroZ := gyroZ d
|}.

Definition with_raw (ax ay az t gx gy gz : Z) (d : Adafruit_MPU6050)
  : Adafruit_MPU6050 := {|
  i2c_dev := i2c_dev d;
  _sensorid_accel := _sensorid_accel d;
  _sensorid_gyro := _sensorid_gyro d;
  _sensorid_temp := _sensorid_temp d;
  rawAccX := ax; rawAccY := ay; rawAccZ := az;
  rawTemp := t;
  rawGyroX := gx; rawGyroY := gy; rawGyroZ := gz;
  temperature := temperature d;
  accX := accX d; accY := accY d; accZ := accZ d;
  gyroX := gyroX d; gyroY := gyroY d; gyroZ := gyroZ d
|}.

Definition with_scaled (ax ay az t gx gy gz : spec_float) (d : Adafruit_MPU6050)
  : Adafruit_MPU6050 := {|
  i2c_dev := i2c_dev d;
  _sensorid_accel := _sensorid_accel d;
  _sensorid_gyro := _sensorid_gyro d;
  _sensorid_temp := _sensorid_temp d;
  rawAccX := rawAccX d; rawAccY := rawAccY d; rawAccZ := rawAccZ d;
  rawTemp := rawTemp d;
  rawGyroX := rawGyroX d; rawGyroY := rawGyroY d; rawGyroZ := rawGyroZ d;
  temperature := t;
  accX := ax; accY := ay; accZ := az;
  gyroX := gx; gyroY := gy; gyroZ := gz
|}.

(** ** The unified sensor event

    Modelled from the spec: [sensors_event_t], its type tags and the
    standard-gravity constant belong to the sensor-reporting framework, which
    is not among the sources.  Only the members the driver assigns are
    kept; the others are cleared by [memset]. *)
Inductive sensors_type_t : Type :=
| SENSOR_TYPE_ACCELEROMETER
| SENSOR_TYPE_GYROSCOPE
| SENSOR_TYPE_AMBIENT_TEMPERATURE.

Record sensors_vec_t : Type := {
  x : spec_float;
  y : spec_float;
  z : spec_float
}.

Inductive sensors_payload : Type :=
| acceleration (v : sensors_vec_t)
| gyro (v : sensors_vec_t)
| temperature_payload (t : spec_float).

Record sensors_event_t : Type := {
  version : Z;
  sensor_id : Z;
  type : sensors_type_t;
  timestamp : Z;
  payload : sensors_payload
}.

(** What the compiler and the framework fix: the width of [double] (that of
    [float] on 8-bit boards, binary64 elsewhere) and the size of an event. *)
Class Platform : Type := {
  double : Float.format;
  sizeof_sensors_event_t : Z
}.

Definition arm : Platform :=
{| double := Float.binary64; sizeof_sensors_event_t := 36 |}.

Definition avr : Platform :=
{| double := Float.binary32; sizeof_sensors_event_t := 36 |}.

Definition float : Float.format := Float.binary32.

(** [9.80665F] *)
Definition SENSORS_GRAVITY_STANDARD : spec_float :=
  Float.literal float 980665 100000.

(** ** Programs over the driver and the bus *)
Section Machine.

Context (T : Transport).

Record World : Type := {
  drv : Adafruit_MPU6050;
  bus : Bus T;
  trace : list BusEvent
}.

(** A run ends with a value, or the loop of [_init] is still spinning
    when the fuel is spent, or the program has no defined behaviour. *)
Inductive result (A : Type) : Type :=
| Ok (a : A) (w : World)
| OutOfFuel
| Undefined.

Definition M (A : Type) : Type := World -> result A.

Definition ret {A} (a : A) : M A := fun w => Ok A a w.

Definition bind {A B} (m : M A) (k : A -> M B) : M B :=
  fun w =>
    match m w with
    | Ok _ a w' => k a w'
    | OutOfFuel _ => OutOfFuel B
    | Undefined _ => Undefined B
    end.

Definition out_of_fuel {A} : M A := fun _ => OutOfFuel A.

Definition undefined {A} : M A := fun _ => Undefined A.

Definition this : M Adafruit_MPU6050 := fun w => Ok _ (drv w) w.

(** An assignment to members of the driver object. *)
Definition assign (f : Adafruit_MPU6050 -> Adafruit_MPU6050) : M unit :=
  fun w => Ok _ tt {| drv := f (drv w); bus := bus w; trace := trace w |}.

End Machine.

Arguments Ok {T A} a w.
Arguments OutOfFuel {T A}.
Arguments Undefined {T A}.
Arguments ret {T A} a.
Arguments bind {T A B} m k.
Arguments out_of_fuel {T A}.
Arguments undefined {T A}.
Arguments this {T}.
Arguments assign {T} f.
Arguments drv {T} w.
Arguments bus {T} w.
Arguments trace {T} w.

Notation "x <- m ;; k" := (bind m (fun x => k))
  (at level 61, m at next level, right associativity).
Notation "m ;;; k" := (bind m (fun _ => k))
  (at level 61, right associativity).

(** ** The register layer

    Modelled from the spec: the classes [Adafruit_I2CDevice],
    [Adafruit_BusIO_Register] and [Adafruit_BusIO_RegisterBits] the driver
    calls are not among the sources.  A register is read and written as
    bytes at an address ("readRegister(addr, length)", "writeRegister(addr,
    bytes)"), least significant byte first; a register field is a window of
    [bits] bits at offset [shift], written by a read-modify-write that
    leaves the other bits of the register as they were. *)
Module BusIO.
Section BusIO.

Context {T : Transport}.
Import Ints.

Definition log (e : BusEvent) (b : Bus T) : M T unit :=
  fun w => Ok tt {| drv := drv w; bus := b; trace := trace w ++ [e] |}.

(** A null or dangling device pointer has no defined behaviour. *)
Definition deref (dev : option Z) : M T Z :=
  match dev with
  | Some addr => ret addr
  | None => undefined
  end.

Definition i2c_begin (dev : option Z) : M T bool :=
  addr <- deref dev ;;
  fun w =>
    let r := hw_begin T addr (bus w) in
    (log (EvBegin addr (fst r)) (snd r) ;;; ret (fst r)) w.

Definition i2c_write (dev : option Z) (bytes : list Z) : M T bool :=
  addr <- deref dev ;;
  fun w =>
    let r := hw_write T addr bytes (bus w) in
    (log (EvWrite addr bytes (fst r)) (snd r) ;;; ret (fst r)) w.

(** A transaction that delivers other than [len] bytes has failed. *)
Definition received (len : nat) (answer : option (list Z)) : option (list Z) :=
  match answer with
  | Some bytes =>
      if Nat.eqb (length bytes) len then Some (map uint8_t bytes) else None
  | None => None
  end.

Definition i2c_write_then_read (dev : option Z) (reg : list Z) (len : nat)
  : M T (option (list Z)) :=
  addr <- deref dev ;;
  fun w =>
    let r := hw_write_then_read T addr reg len (bus w) in
    let res := received len (fst r) in
    (log (EvRead addr reg len res) (snd r) ;;; ret res) w.

Definition delay (ms : Z) : M T unit :=
  fun w => log (EvDelay ms) (hw_delay T ms (bus w)) w.

Record Register : Type := {
  reg_dev : option Z;
  reg_addr : Z;
  reg_width : nat
}.

Definition Adafruit_BusIO_Register (dev : option Z) (addr : Z) (width : nat)
  : Register :=
  {| reg_dev := dev; reg_addr := addr; reg_width := width |}.

(** The value of the bytes of a register, least significant first. *)
Definition le_value (buffer : list Z) : Z :=
  fold_right (fun b acc => Z.lor (Z.shiftl acc 8) b) 0 buffer.

Fixpoint le_bytes (n : nat) (value : Z) : list Z :=
  match n with
  | O => []
  | S k => Z.land value 255 :: le_bytes k (Z.shiftr value 8)
  end.

(** [read(buffer, len)]: the bytes, or [None] when the transaction failed
    and the buffer was left as it was. *)
Definition read_buffer (r : Register) (len : nat) : M T (option (list Z)) :=
  i2c_write_then_read (reg_dev r) [uint8_t (reg_addr r)] len.

(** [read()]: the value of the register, -1 when the transaction failed. *)
Definition value_of (res : option (list Z)) : Z :=
  match res with
  | Some buffer => uint32_t (le_value buffer)
  | None => uint32_t (-1)
  end.

Definition read (r : Register) : M T Z :=
  res <- read_buffer r (reg_width r) ;;
  ret (value_of res).

Definition write (r : Register) (value : Z) : M T bool :=
  i2c_write (reg_dev r)
    (uint8_t (reg_addr r) :: le_bytes (reg_width r) (uint32_t value)).

Record RegisterBits : Type := {
  bits_register : Register;
  bits_bits : Z;
  bits_shift : Z
}.

Definition Adafruit_BusIO_RegisterBits (r : Register) (bits shift : Z)
  : RegisterBits :=
  {| bits_register := r; bits_bits := bits; bits_shift := shift |}.

Definition read_bits (f : RegisterBits) : M T Z :=
  val <- read (bits_register f) ;;
  let val := Z.shiftr val (bits_shift f) in
  ret (Z.land val (Z.shiftl 1 (bits_bits f) - 1)).

Definition write_bits (f : RegisterBits) (data : Z) : M T bool :=
  val <- read (bits_register f) ;;
  let mask := Z.shiftl 1 (bits_bits f) - 1 in
  let data := Z.land (uint32_t data) mask in
  let mask := uint32_t (Z.shiftl mask (bits_shift f)) in
  let val := Z.land val (uint32_t (Z.lnot mask)) in
  let val := Z.lor val (uint32_t (Z.shiftl data (bits_shift f))) in
  write (bits_register f) val.

End BusIO.
End BusIO.

(** ** The driver, [Adafruit_MPU6050.cpp] *)
Section Driver.

Context {H : Header} {P : Platform} {T : Transport}.
Import Ints.

(** The busy-wait loop of [_init], one iteration per unit of fuel. *)
Fixpoint await_reset (fuel : nat) (power_mgmt_1 : BusIO.Register) : M T unit :=
  match fuel with
  | O => out_of_fuel
  | S fuel' =>
      v <- BusIO.read power_mgmt_1 ;;
      if v =? 0x40 (* 0b01000000 *) then ret tt
      else BusIO.delay 10 ;;; await_reset fuel' power_mgmt_1
  end.

Definition _init (fuel : nat) (sensorID : Z) : M T bool :=
d <- this ;;
let chip_id := BusIO.Adafruit_BusIO_Register (i2c_dev d) MPU6050_WHO_AM_I 1 in
id <- BusIO.read chip_id ;;
if negb (id =? MPU6050_DEVICE_ID) then ret false
else
  assign (with_sensorids sensorID
            (int32_t (sensorID + 1)) (int32_t (sensorID + 2))) ;;;
  let power_mgmt_1 :=
    BusIO.Adafruit_BusIO_Register (i2c_dev d) MPU6050_PWR_MGMT_1 1 in
  BusIO.write power_mgmt_1 0x80 (* 0b10000000 *) ;;;
  await_reset fuel power_mgmt_1 ;;;
  let sample_rate_div :=
    BusIO.Adafruit_BusIO_Register (i2c_dev d) MPU6050_SMPLRT_DIV 1 in
  BusIO.write sample_rate_div 0x00 ;;;
  let config := BusIO.Adafruit_BusIO_Register (i2c_dev d) MPU6050_CONFIG 1 in
  BusIO.write config 0x00 ;;;
  let gyro_config :=
    BusIO.Adafruit_BusIO_Register (i2c_dev d) MPU6050_GYRO_CONFIG 1 in
  BusIO.write gyro_config 0x08 ;;;
  let accel_config :=
    BusIO.Adafruit_BusIO_Register (i2c_dev d) MPU6050_ACCEL_CONFIG 1 in
  BusIO.write accel_config 0x00 ;;;
  BusIO.write power_mgmt_1 0x01 ;;;
  BusIO.delay 100 ;;;
  ret true.

Definition begin (fuel : nat) (i2c_address : Z) (sensorID : Z) : M T bool :=
assign (with_i2c_dev (Some (uint8_t i2c_address))) ;;;
d <- this ;;
ok <- BusIO.i2c_begin (i2c_dev d) ;;
if negb ok then ret false
else _init fuel sensorID.

Definition getAccelerometerRange : M T mpu6050_range_t :=
  d <- this ;;
  let config :=
    BusIO.Adafruit_BusIO_Register (i2c_dev d) MPU6050_ACCEL_CONFIG 1 in
  let accel_range := BusIO.Adafruit_BusIO_RegisterBits config 2 3 in
  BusIO.read_bits accel_range.

Definition setAccelerometerRange (new_range : mpu6050_range_t) : M T unit :=
  d <- this ;;
  let config :=
    BusIO.Adafruit_BusIO_Register (i2c_dev d) MPU6050_ACCEL_CONFIG 1 in
  let accel_range := BusIO.Adafruit_BusIO_RegisterBits config 2 3 in
  BusIO.write_bits accel_range new_range ;;;
  ret tt.

(** [buffer[i] << 8 | buffer[i + 1]], stored in an [int16_t]. *)
Definition be16 (buffer : list Z) (i : nat) : Z :=
  int16_t (Z.lor (Z.shiftl (nth i buffer 0) 8) (nth (S i) buffer 0)).

(** The scale of [read]: four tests in a row, the last that holds wins. *)
Definition accel_scale (range : mpu6050_range_t) : spec_float :=
  let scale := Float.of_Z float 1 in
  let scale :=
    if range =? MPU6050_RANGE_16_G then Float.of_Z float 2048 else scale in
  let scale :=
    if range =? MPU6050_RANGE_8_G then Float.of_Z float 4096 else scale in
  let scale :=
    if range =? MPU6050_RANGE_4_G then Float.of_Z float 8192 else scale in
  let scale :=
    if range =? MPU6050_RANGE_2_G then Float.of_Z float 16384 else scale in
  scale.

(** [((float)raw) / scale] *)
Definition scale_accel (raw : Z) (scale : spec_float) : spec_float :=
  Float.div float (Float.of_Z float raw) scale.

(** [(rawTemp + 12412.0) / 340.0], computed in [double], stored in a
    [float]. *)
Definition scale_temperature (raw : Z) : spec_float :=
  Float.convert float
    (Float.div double
       (Float.add double (Float.of_Z double raw) (Float.literal double 12412 1))
       (Float.literal double 340 1)).

(** [((float)raw) / 65.5], computed in [double], stored in a [float]. *)
Definition scale_gyro (raw : Z) : spec_float :=
  Float.convert float
    (Float.div double
       (Float.convert double (Float.of_Z float raw))
       (Float.literal double 655 10)).

(** The local [buffer] is not initialised: when the burst read fails its
    bytes are indeterminate and what follows has no defined behaviour. *)
Definition read : M T unit :=
d <- this ;;
let data_reg :=
  BusIO.Adafruit_BusIO_Register (i2c_dev d) MPU6050_ACCEL_OUT 14 in
res <- BusIO.read_buffer data_reg 14 ;;
match res with
| None => undefined
| Some buffer =>
    assign (with_raw (be16 buffer 0) (be16 buffer 2) (be16 buffer 4)
              (be16 buffer 6)
              (be16 buffer 8) (be16 buffer 10) (be16 buffer 12)) ;;;
    range <- getAccelerometerRange ;;
    let scale := accel_scale range in
    d <- this ;;
    assign (with_scaled
              (scale_accel (rawAccX d) scale)
              (scale_accel (rawAccY d) scale)
              (scale_accel (rawAccZ d) scale)
              (scale_temperature (rawTemp d))
              (scale_gyro (rawGyroX d))
              (scale_gyro (rawGyroY d))
              (scale_gyro (rawGyroZ d)))
end.

Definition getEvent : M T (bool * (sensors_event_t * sensors_event_t * sensors_event_t)) :=
  d <- this ;;
  let accel := {|
    version := sizeof_sensors_event_t;
    sensor_id := _sensorid_accel d;
    type := SENSOR_TYPE_ACCELEROMETER;
    timestamp := 0;
    payload := acceleration {|
      x := Float.mul float (accX d) SENSORS_GRAVITY_STANDARD;
      y := Float.mul float (accY d) SENSORS_GRAVITY_STANDARD;
      z := Float.mul float (accZ d) SENSORS_GRAVITY_STANDARD |}
  |} in
  let gyro := {|
    version := sizeof_sensors_event_t;
    sensor_id := _sensorid_gyro d;
    type := SENSOR_TYPE_GYROSCOPE;
    timestamp := 0;
    payload := gyro {| x := gyroX d; y := gyroY d; z := gyroZ d |}
  |} in
  let temp := {|
    version := sizeof_sensors_event_t;
    sensor_id := _sensorid_temp d;
    type := SENSOR_TYPE_AMBIENT_TEMPERATURE;
    timestamp := 0;
    payload := temperature_payload (temperature d)
  |} in
  ret (true, (accel, gyro, temp)).

End Driver.

(** ** The sensor descriptor

    Modelled from the spec: [sensor_t] is declared in [Adafruit_Sensor.h],
    which is not among the sources.  It is a record of fixed shape, "name
    (<= N chars, null-terminated), version, integer sensor id, type tag",
    with the numeric range and resolution members [getSensor] assigns.  The
    size of the array [name] is a parameter of the framework. *)
Class Framework : Type := {
  (** [sizeof(name) - 1]; an array has at least one element. *)
  name_last : nat
}.

(** [char name[12]] *)
Definition unified_sensor : Framework := {| name_last := 11 |}.

Module Descriptor.
Import Ascii String.

Record sensor_t : Type := {
  name : list ascii;
  version : Z;
  sensor_id : Z;
  type : option sensors_type_t;
  max_value : spec_float;
  min_value : spec_float;
  resolution : spec_float;
  min_delay : Z
}.

Definition NUL : ascii := Ascii.zero.

(** [sizeof(sensor->name)] *)
Definition sizeof_name {F : Framework} : nat := S name_last.

(** [memset(sensor, 0, sizeof(sensor_t))]: every byte of the object is 0,
    so no type tag is set. *)
Definition memset_zero {F : Framework} : sensor_t := {|
  name := repeat NUL sizeof_name;
  version := 0;
  sensor_id := 0;
  type := None;
  max_value := Float.zero;
  min_value := Float.zero;
  resolution := Float.zero;
  min_delay := 0
|}.

(** [strncpy(dst, src, n)], [src] a string without a NUL inside and [dst]
    of at least [n] characters: the first [n] characters of [src], padded
    with NUL up to [n] when [src] is shorter; no NUL is added when it is
    not.  What follows the first [n] characters of [dst] stays. *)
Definition strncpy (dst : list ascii) (src : string) (n : nat) : list ascii :=
List.firstn n (list_ascii_of_string src ++ repeat NUL n) ++ List.skipn n dst.

(** [dst[i] = c], [i] within the array. *)
Definition store_char (dst : list ascii) (i : nat) (c : ascii) : list ascii :=
List.firstn i dst ++ c :: List.skipn (S i) dst.

Definition with_name (v : list ascii) (s : sensor_t) : sensor_t :=
{| name := v; version := version s; sensor_id := sensor_id s;
   type := type s; max_value := max_value s; min_value := min_value s;
   resolution := resolution s; min_delay := min_delay s |}.

Definition with_version (v : Z) (s : sensor_t) : sensor_t :=
{| name := name s; version := v; sensor_id := sensor_id s;
   type := type s; max_value := max_value s; min_value := min_value s;
   resolution := resolution s; min_delay := min_delay s |}.

Definition with_sensor_id (v : Z) (s : sensor_t) : sensor_t :=
{| name := name s; version := version s; sensor_id := v;
   type := type s; max_value := max_value s; min_value := min_value s;
   resolution := resolution s; min_delay := min_delay s |}.

Definition with_type (v : sensors_type_t) (s : sensor_t) : sensor_t :=
{| name := name s; version := version s; sensor_id := sensor_id s;
   type := Some v; max_value := max_value s; min_value := min_value s;
   resolution := resolution s; min_delay := min_delay s |}.

Definition with_min_delay (v : Z) (s : sensor_t) : sensor_t :=
{| name := name s; version := version s; sensor_id := sensor_id s;
   type := type s; max_value := max_value s; min_value := min_value s;
   resolution := resolution s; min_delay := v |}.

Definition with_max_value (v : spec_float) (s : sensor_t) : sensor_t :=
{| name := name s; version := version s; sensor_id := sensor_id s;
   type := type s; max_value := v; min_value := min_value s;
   resolution := resolution s; min_delay := min_delay s |}.

Definition with_min_value (v : spec_float) (s : sensor_t) : sensor_t :=
{| name := name s; version := version s; sensor_id := sensor_id s;
   type := type s; max_value := max_value s; min_value := v;
   resolution := resolution s; min_delay := min_delay s |}.

Definition with_resolution (v : spec_float) (s : sensor_t) : sensor_t :=
{| name := name s; version := version s; sensor_id := sensor_id s;
   type := type s; max_value := max_value s; min_value := min_value s;
   resolution := v; min_delay := min_delay s |}.

End Descriptor.

Section Descriptors.

Context {F : Framework} {T : Transport}.
Import Descriptor String.
Local Open Scope string_scope.

(** The three descriptors are objects of the caller: each is cleared and
    then assigned member by member, so what it held before is lost and the
    function returns the three new values.  The accelerometer's numeric
    members are assigned the integer [0], the others the [double] [0.0]. *)
Definition getSensor : M T (sensor_t * sensor_t * sensor_t) :=
d <- this ;;
let accel := memset_zero in
let accel := with_name (strncpy (name accel) "MPU6050_A" (sizeof_name - 1)) accel in
let accel := with_name (store_char (name accel) (sizeof_name - 1) NUL) accel in
let accel := with_version 1 accel in
let accel := with_sensor_id (_sensorid_accel d) accel in
let accel := with_type SENSOR_TYPE_ACCELEROMETER accel in
let accel := with_min_delay 0 accel in
let accel := with_max_value (Float.of_Z float 0) accel in
let accel := with_min_value (Float.of_Z float 0) accel in
let accel := with_resolution (Float.of_Z float 0) accel in
let gyro := memset_zero in
let gyro := with_name (strncpy (name gyro) "MPU6050_G" (sizeof_name - 1)) gyro in
let gyro := with_name (store_char (name gyro) (sizeof_name - 1) NUL) gyro in
let gyro := with_version 1 gyro in
let gyro := with_sensor_id (_sensorid_gyro d) gyro in
let gyro := with_type SENSOR_TYPE_GYROSCOPE gyro in
let gyro := with_min_delay 0 gyro in
let gyro := with_max_value (Float.convert float Float.zero) gyro in
let gyro := with_min_value (Float.convert float Float.zero) gyro in
let gyro := with_resolution (Float.convert float Float.zero) gyro in
let temp := memset_zero in
let temp := with_name (strncpy (name temp) "MPU6050_T" (sizeof_name - 1)) temp in
let temp := with_name (store_char (name temp) (sizeof_name - 1) NUL) temp in
let temp := with_version 1 temp in
let temp := with_sensor_id (_sensorid_temp d) temp in
let temp := with_type SENSOR_TYPE_AMBIENT_TEMPERATURE temp in
let temp := with_min_delay 0 temp in
let temp := with_max_value (Float.convert float Float.zero) temp in
let temp := with_min_value (Float.convert float Float.zero) temp in
let temp := with_resolution (Float.convert float Float.zero) temp in
ret (accel, gyro, temp).

End Descriptors.

(** ** A chip to run the driver against

    The register file of an MPU-6050 behind the transport: registers hold
    what is written to them, the identification register is read-only, and
    a write of the reset bit to the power-management register clears the
    registers and, [reset_latency] delays later, leaves the post-reset value
    there.  [reset_latency = None] is a chip whose power-management register
    shows the reset bit for ever.  The fourteen output registers show
    [measurement]. *)
Module Chip.

Record config : Type := {
  present : bool;
  who_am_i : Z;
  reset_latency : option nat;
  measurement : list Z
}.

Record state : Type := {
  regs : Z -> Z;
  in_reset : bool;
  countdown : nat
}.

Definition power_on : state :=
  {| regs := fun _ => 0; in_reset := false; countdown := 0 |}.

Definition store (r v : Z) (f : Z -> Z) : Z -> Z :=
  fun r' => if r' =? r then v mod 256 else f r'.

Fixpoint store_all (r : Z) (data : list Z) (f : Z -> Z) : Z -> Z :=
  match data with
  | [] => f
  | v :: data' => store_all (r + 1) data' (store r v f)
  end.

Definition load (c : config) (s : state) (r : Z) : Z :=
  if r =? 0x75 then who_am_i c
  else if r =? 0x6B then
    match reset_latency c with
    | None => 0x80
    | Some _ => if in_reset s then 0x80 else regs s r
    end
  else if (0x3B <=? r) && (r <? 0x3B + 14) then
    nth (Z.to_nat (r - 0x3B)) (measurement c) 0
  else regs s r.

Definition after_reset : Z -> Z := store 0x6B 0x40 (fun _ => 0).

Definition write (c : config) (bytes : list Z) (s : state) : state :=
  match bytes with
  | [] => s
  | r :: data =>
      if (r =? 0x6B) && Z.testbit (hd 0 data) 7 then
        match reset_latency c with
        | Some O => {| regs := after_reset; in_reset := false; countdown := 0 |}
        | Some n => {| regs := after_reset; in_reset := true; countdown := n |}
        | None => {| regs := after_reset; in_reset := true; countdown := 0 |}
        end
      else
        {| regs := store_all r data (regs s);
           in_reset := in_reset s;
           countdown := countdown s |}
  end.

Definition tick (c : config) (s : state) : state :=
  match reset_latency c, in_reset s, countdown s with
  | Some _, true, S O => {| regs := regs s; in_reset := false; countdown := 0 |}
  | Some _, true, S n => {| regs := regs s; in_reset := true; countdown := n |}
  | _, _, _ => s
  end.

Definition transport (c : config) : Transport := {|
  Bus := state;
  hw_begin := fun _ s => (present c, s);
  hw_write := fun _ bytes s =>
    if present c then (true, write c bytes s) else (false, s);
  hw_write_then_read := fun _ reg len s =>
    if present c then
      (Some (map (fun i => load c s (hd 0 reg + Z.of_nat i)) (seq 0 len)), s)
    else (None, s);
  hw_delay := fun _ s => tick c s
|}.

Definition mpu6050 (latency : nat) (sample : list Z) : config :=
  {| present := true; who_am_i := 0x68;
     reset_latency := Some latency; measurement := sample |}.

Definition stuck_in_reset : config :=
  {| present := true; who_am_i := 0x68;
     reset_latency := None; measurement := [] |}.

Definition other_chip (id : Z) : config :=
  {| present := true; who_am_i := id;
     reset_latency := Some O; measurement := [] |}.

Definition absent : config :=
  {| present := false; who_am_i := 0xFF;
     reset_latency := None; measurement := [] |}.

End Chip.

(** A driver object in zero-filled storage and the chip at power-on. *)
Definition boot (c : Chip.config) : World (Chip.transport c) :=
Build_World (Chip.transport c) zero_initialized Chip.power_on [].

(** A driver object bound to the chip at the default address, as [begin]
    leaves it. *)
Definition attached (c : Chip.config) : World (Chip.transport c) :=
Build_World (Chip.transport c)
  (with_i2c_dev (Some 0x69) zero_initialized) Chip.power_on [].

(** A sample whose temperature word is 0xCF84, that is -12412. *)
Definition cold_sample : list Z :=
[0x40; 0x00; 0xC0; 0x00; 0x12; 0x34; 0xCF; 0x84; 0x00; 0x01; 0xFF; 0xFF; 0x80; 0x00].

(** * Part II: what the properties speak of *)

(** ** The register field of the accelerometer range *)
Module Field.
Import Ints.

(** The register value [write_bits] writes over [val] for a field of 2 bits
    at offset 3. *)
Definition updated (val data : Z) : Z :=
  let mask := Z.shiftl 1 2 - 1 in
  let data := Z.land (uint32_t data) mask in
  let mask := uint32_t (Z.shiftl mask 3) in
  let val := Z.land val (uint32_t (Z.lnot mask)) in
  Z.lor val (uint32_t (Z.shiftl data 3)).

(** The byte that goes on the wire for a register of width 1. *)
Definition written_byte (val data : Z) : Z :=
  Z.land (uint32_t (updated val data)) 255.

(** The field read back from a register value. *)
Definition extracted (val : Z) : Z :=
  Z.land (Z.shiftr val 3) (Z.shiftl 1 2 - 1).

End Field.

(** ** The worlds a run goes through *)
Section Worlds.

Context {H : Header} {P : Platform} {T : Transport}.
Import Ints.

(** The world after a register read of [len] bytes at [reg]. *)
Definition after_read (addr : Z) (reg : Z) (len : nat) (w : World T) : World T :=
  let r := hw_write_then_read T addr [uint8_t reg] len (bus w) in
  {| drv := drv w;
     bus := snd r;
     trace := trace w ++ [EvRead addr [uint8_t reg] len (BusIO.received len (fst r))] |}.

Definition answer_of (addr : Z) (reg : Z) (len : nat) (w : World T)
  : option (list Z) :=
  BusIO.received len (fst (hw_write_then_read T addr [uint8_t reg] len (bus w))).

(** The world after a write of [bytes]. *)
Definition after_write (addr : Z) (bytes : list Z) (w : World T) : World T :=
  let r := hw_write T addr bytes (bus w) in
  {| drv := drv w;
     bus := snd r;
     trace := trace w ++ [EvWrite addr bytes (fst r)] |}.

Definition after_delay (ms : Z) (w : World T) : World T :=
  {| drv := drv w;
     bus := hw_delay T ms (bus w);
     trace := trace w ++ [EvDelay ms] |}.

(** The world after [i2c_dev = new ...; i2c_dev->begin()]. *)
Definition after_begin (addr : Z) (w : World T) : World T :=
let r := hw_begin T addr (bus w) in
{| drv := with_i2c_dev (Some addr) (drv w);
   bus := snd r;
   trace := trace w ++ [EvBegin addr (fst r)] |}.

Definition opened (addr : Z) (w : World T) : bool :=
fst (hw_begin T addr (bus w)).

(** What [chip_id.read()] returns in [w]. *)
Definition chip_id_read (addr : Z) (w : World T) : Z :=
BusIO.value_of (answer_of addr MPU6050_WHO_AM_I 1 w).

Definition identified (sensorID : Z) (w : World T) : World T :=
{| drv := with_sensorids sensorID
            (int32_t (sensorID + 1)) (int32_t (sensorID + 2)) (drv w);
   bus := bus w;
   trace := trace w |}.

(** What [power_mgmt_1.read()] returns in [w], and whether it is the
    post-reset value. *)
Definition power_mgmt_read (addr : Z) (w : World T) : Z :=
BusIO.value_of (answer_of addr MPU6050_PWR_MGMT_1 1 w).

Definition reset_done (addr : Z) (w : World T) : Prop :=
power_mgmt_read addr w = 0x40.

(** One turn of the loop that did not see the post-reset value. *)
Definition poll_again (addr : Z) (w : World T) : World T :=
after_delay 10 (after_read addr MPU6050_PWR_MGMT_1 1 w).

(** The world when the reset is written, and when the registers are set. *)
Definition reset_written (addr sensorID : Z) (w : World T) : World T :=
after_write addr [uint8_t MPU6050_PWR_MGMT_1; 0x80]
  (identified sensorID (after_read addr MPU6050_WHO_AM_I 1 w)).

Definition configured (addr : Z) (w : World T) : World T :=
after_delay 100
  (after_write addr [uint8_t MPU6050_PWR_MGMT_1; 0x01]
     (after_write addr [uint8_t MPU6050_ACCEL_CONFIG; 0x00]
        (after_write addr [uint8_t MPU6050_GYRO_CONFIG; 0x08]
           (after_write addr [uint8_t MPU6050_CONFIG; 0x00]
              (after_write addr [uint8_t MPU6050_SMPLRT_DIV; 0x00] w))))).

Definition power_mgmt_1_of (addr : Z) : BusIO.Register :=
BusIO.Adafruit_BusIO_Register (Some addr) MPU6050_PWR_MGMT_1 1.

(** The world when the raw members are assigned from the burst. *)
Definition sampled (buffer : list Z) (w : World T) : World T :=
{| drv := with_raw (be16 buffer 0) (be16 buffer 2) (be16 buffer 4)
            (be16 buffer 6)
            (be16 buffer 8) (be16 buffer 10) (be16 buffer 12) (drv w);
   bus := bus w;
   trace := trace w |}.

(** The range [getAccelerometerRange] reads back in [w]. *)
Definition range_read_back (addr : Z) (w : World T) : mpu6050_range_t :=
Field.extracted (BusIO.value_of (answer_of addr MPU6050_ACCEL_CONFIG 1 w)).

(** The world when the scaled members are assigned. *)
Definition scaled (range : mpu6050_range_t) (w : World T) : World T :=
{| drv := with_scaled
            (scale_accel (rawAccX (drv w)) (accel_scale range))
            (scale_accel (rawAccY (drv w)) (accel_scale range))
            (scale_accel (rawAccZ (drv w)) (accel_scale range))
            (scale_temperature (rawTemp (drv w)))
            (scale_gyro (rawGyroX (drv w)))
            (scale_gyro (rawGyroY (drv w)))
            (scale_gyro (rawGyroZ (drv w))) (drv w);
   bus := bus w;
   trace := trace w |}.

End Worlds.

(** What a run leaves to look at: the value returned, the driver object and
    the record of the bus. *)
Definition outcome {T : Transport} {A : Type} (r : result T A)
  : option (A * Adafruit_MPU6050 * list BusEvent) :=
match r with
| Ok a w => Some (a, drv w, trace w)
| _ => None
end.

(** ** Events *)

(** The events [getEvent] fills in from the members of the driver. *)
Definition accel_event {P : Platform} (d : Adafruit_MPU6050) : sensors_event_t := {|
  version := sizeof_sensors_event_t;
  sensor_id := _sensorid_accel d;
  type := SENSOR_TYPE_ACCELEROMETER;
  timestamp := 0;
  payload := acceleration {|
    x := Float.mul float (accX d) SENSORS_GRAVITY_STANDARD;
    y := Float.mul float (accY d) SENSORS_GRAVITY_STANDARD;
    z := Float.mul float (accZ d) SENSORS_GRAVITY_STANDARD |}
|}.

Definition gyro_event {P : Platform} (d : Adafruit_MPU6050) : sensors_event_t := {|
  version := sizeof_sensors_event_t;
  sensor_id := _sensorid_gyro d;
  type := SENSOR_TYPE_GYROSCOPE;
  timestamp := 0;
  payload := gyro {| x := gyroX d; y := gyroY d; z := gyroZ d |}
|}.

Definition temp_event {P : Platform} (d : Adafruit_MPU6050) : sensors_event_t := {|
  version := sizeof_sensors_event_t;
  sensor_id := _sensorid_temp d;
  type := SENSOR_TYPE_AMBIENT_TEMPERATURE;
  timestamp := 0;
  payload := temperature_payload (temperature d)
|}.


(** ** Properties of a transport, of a sample and of the identifiers *)

(** The device at [addr] keeps in register [reg] the byte last written to
    it. *)
Definition stores_register (T : Transport) (addr reg : Z) : Prop :=
forall (b : Bus T) (v : Z), 0 <= v < 256 ->
  fst (hw_write_then_read T addr [reg] 1 (snd (hw_write T addr [reg; v] b)))
  = Some [v].

(** The transport never shows the post-reset value in the power-management
    register. *)
Definition never_reset {H : Header} (T : Transport) (addr : Z) : Prop :=
forall b : Bus T,
  BusIO.value_of
    (BusIO.received 1
       (fst (hw_write_then_read T addr [Ints.uint8_t MPU6050_PWR_MGMT_1] 1 b)))
  <> 0x40.

(** The identifiers the spec derives from a base identifier. *)
Definition ids_derived_from (base : Z) (d : Adafruit_MPU6050) : Prop :=
_sensorid_accel d = base /\
_sensorid_gyro d = base + 1 /\
_sensorid_temp d = base + 2.

(** The divisor of each range setting, as the table of the spec has it. *)
Definition accel_divisors {H : Header} : list (mpu6050_range_t * positive) :=
[(MPU6050_RANGE_2_G, 16384%positive);
 (MPU6050_RANGE_4_G, 8192%positive);
 (MPU6050_RANGE_8_G, 4096%positive);
 (MPU6050_RANGE_16_G, 2048%positive)].

(** [acc] is [raw] divided by [divisor]: the single-precision quotient,
    which is finite and is the rational quotient itself. *)
Definition scaled_by (divisor : positive) (raw : Z) (acc : spec_float) : Prop :=
Ints.in_int16 raw /\
acc = Float.div float (Float.of_Z float raw) (Float.of_Z float (Z.pos divisor)) /\
Float.is_finite acc = true /\
(Float.to_Q acc == raw # divisor)%Q.

(** The width of [double] is one of the two the boards have. *)
Definition double_is_ieee {P : Platform} : Prop :=
double = Float.binary32 \/ double = Float.binary64.

(** ** Checking a predicate on every 16-bit value *)
Fixpoint forall_below (n : nat) (p : Z -> bool) : bool :=
match n with
| O => true
| S k => p (Z.of_nat k) && forall_below k p
end.

(** High byte by low byte, so that no recursion is deeper than 256. *)
Definition forall_int16 (p : Z -> bool) : bool :=
forall_below 256 (fun hi =>
  forall_below 256 (fun lo => p (256 * hi + lo + Ints.INT16_MIN))).

(** ** The temperature *)
Module Temperature.

(** The computation of [scale_temperature] when [double] is the format [D]
    and the two literals have the values [k] and [c]. *)
Definition in_format (D : Float.format) (k c : spec_float) (raw : Z) : spec_float :=
Float.convert float (Float.div D (Float.add D (Float.of_Z D raw) k) c).

(** [q] is finite and within [eps] of [n / d]. *)
Definition near (q : spec_float) (n : Z) (d : positive) (eps : Q) : bool :=
Float.is_finite q && Qle_bool (Qabs (Float.to_Q q - (n # d))) eps.

(** Half a unit in the last place of a single-precision number below 256. *)
Definition half_ulp : Q := 1 # 131072.

(** The values of the literals [12412.0] and [340.0] in single precision. *)
Definition offset32 : spec_float :=
Eval vm_compute in Float.literal Float.binary32 12412 1.

Definition slope32 : spec_float :=
Eval vm_compute in Float.literal Float.binary32 340 1.

Definition ok_binary32 (raw : Z) : bool :=
near (in_format Float.binary32 offset32 slope32 raw) (raw + 12412) 340 half_ulp.

(** The double-precision computation on the machine's own numbers. *)
Definition prim_of_int (raw : Z) : PrimFloat.float :=
if raw <? 0
then PrimFloat.opp (PrimFloat.of_uint63 (Uint63.of_Z (- raw)))
else PrimFloat.of_uint63 (Uint63.of_Z raw).

Definition in_binary64 (k c : PrimFloat.float) (raw : Z) : spec_float :=
Float.convert float
  (FloatOps.Prim2SF (PrimFloat.div (PrimFloat.add (prim_of_int raw) k) c)).

(** The values of the literals in double precision. *)
Definition offset64 : PrimFloat.float :=
Eval vm_compute in FloatOps.SF2Prim (Float.literal Float.binary64 12412 1).

Definition slope64 : PrimFloat.float :=
Eval vm_compute in FloatOps.SF2Prim (Float.literal Float.binary64 340 1).

Definition ok_binary64 (raw : Z) : bool :=
near (in_binary64 offset64 slope64 raw) (raw + 12412) 340 half_ulp.

End Temperature.

(** ** Descriptors, transcripts and samples *)

(** The string a character array holds: what precedes its first NUL. *)
Fixpoint c_str (a : list Ascii.ascii) : list Ascii.ascii :=
match a with
| [] => []
| c :: rest => if Ascii.eqb c Descriptor.NUL then [] else c :: c_str rest
end.

(** The value of two bytes, the most significant first, and the 16-bit
    two's complement number with that unsigned value. *)
Definition big_endian (hi lo : Z) : Z := 256 * hi + lo.

Definition signed16 (u : Z) : Z := if u <? 32768 then u else u - 65536.

(** The two bytes of a 16-bit number, the most significant first. *)
Definition int16_bytes (v : Z) : list Z :=
[(v mod 65536) / 256; v mod 256].

Definition is_byte (b : Z) : Prop := 0 <= b < 256.

(** The seven raw members, in the order of the burst. *)
Definition raw_sample (d : Adafruit_MPU6050) : list Z :=
[rawAccX d; rawAccY d; rawAccZ d; rawTemp d; rawGyroX d; rawGyroY d; rawGyroZ d].

(** The seven scaled members, in the same order. *)
Definition scaled_sample (d : Adafruit_MPU6050) : list spec_float :=
[accX d; accY d; accZ d; temperature d; gyroX d; gyroY d; gyroZ d].

(** One turn of the reset loop in the record of the bus: the poll and the
    delay that follows it. *)
Definition failed_poll {H : Header} (addr : Z) (answer : option (list Z))
  : list BusEvent :=
[EvRead addr [Ints.uint8_t MPU6050_PWR_MGMT_1] 1 answer; EvDelay 10].

(** The five writes that configure the chip, each with the outcome the
    transport reported, and the delay that ends [_init]. *)
Definition configuration {H : Header} (addr : Z) (ok1 ok2 ok3 ok4 ok5 : bool)
  : list BusEvent :=
[EvWrite addr [Ints.uint8_t MPU6050_SMPLRT_DIV; 0x00] ok1;
 EvWrite addr [Ints.uint8_t MPU6050_CONFIG; 0x00] ok2;
 EvWrite addr [Ints.uint8_t MPU6050_GYRO_CONFIG; 0x08] ok3;
 EvWrite addr [Ints.uint8_t MPU6050_ACCEL_CONFIG; 0x00] ok4;
 EvWrite addr [Ints.uint8_t MPU6050_PWR_MGMT_1; 0x01] ok5;
 EvDelay 100].

(** The milliseconds of delay in a record of the bus. *)
Fixpoint delay_total (tr : list BusEvent) : Z :=
match tr with
| [] => 0
| EvDelay ms :: rest => ms + delay_total rest
| _ :: rest => delay_total rest
end.

(** A header that numbers the ranges otherwise than the data sheet: two
    constants coincide and none is a value of the 2-bit field. *)
Definition renumbered : Header := {|
  MPU6050_WHO_AM_I := 0x75; MPU6050_DEVICE_ID := 0x68;
  MPU6050_PWR_MGMT_1 := 0x6B; MPU6050_SMPLRT_DIV := 0x19;
  MPU6050_CONFIG := 0x1A; MPU6050_GYRO_CONFIG := 0x1B;
  MPU6050_ACCEL_CONFIG := 0x1C; MPU6050_ACCEL_OUT := 0x3B;
  MPU6050_RANGE_2_G := 4; MPU6050_RANGE_4_G := 5;
  MPU6050_RANGE_8_G := 5; MPU6050_RANGE_16_G := 7
|}.

(** The divisors the chain of tests in [read] can leave in [scale]. *)
Definition scales : list positive :=
[1; 2048; 4096; 8192; 16384]%positive.

(** What [getSensor] says of one channel: the array [name] is full, ends
    with a NUL and holds as much of [label] as fits before it; the version
    is 1; the numeric members are zero. *)
Definition describes {F : Framework} (label : String.string) (id : Z)
  (tag : sensors_type_t) (s : Descriptor.sensor_t) : Prop :=
length (Descriptor.name s) = S name_last /\
nth name_last (Descriptor.name s) Ascii.one = Descriptor.NUL /\
c_str (Descriptor.name s)
= firstn name_last (String.list_ascii_of_string label) /\
Descriptor.version s = 1 /\
Descriptor.sensor_id s = id /\
Descriptor.type s = Some tag /\
Descriptor.min_delay s = 0 /\
Descriptor.max_value s = Float.zero /\
Descriptor.min_value s = Float.zero /\
Descriptor.resolution s = Float.zero.

(** ** The rates *)
Module Gyro.

(** The computation of [scale_gyro] when [double] is the format [D] and the
    literal [65.5] has the value [c]. *)
Definition in_format (D : Float.format) (c : spec_float) (raw : Z) : spec_float :=
Float.convert float (Float.div D (Float.convert D (Float.of_Z float raw)) c).

(** Half a unit in the last place of a single-precision number below 512. *)
Definition half_ulp : Q := 1 # 65536.

(** The value of the literal [65.5] in single precision. *)
Definition divisor32 : spec_float :=
Eval vm_compute in Float.literal Float.binary32 655 10.

(** [raw / 65.5] is [2 raw / 131]. *)
Definition ok_binary32 (raw : Z) : bool :=
Temperature.near (in_format Float.binary32 divisor32 raw) (2 * raw) 131 half_ulp.

(** The double-precision computation on the machine's own numbers. *)
Definition in_binary64 (c : PrimFloat.float) (raw : Z) : spec_float :=
Float.convert float
  (FloatOps.Prim2SF (PrimFloat.div (Temperature.prim_of_int raw) c)).

Definition divisor64 : PrimFloat.float :=
Eval vm_compute in FloatOps.SF2Prim (Float.literal Float.binary64 655 10).

Definition ok_binary64 (raw : Z) : bool :=
Temperature.near (in_binary64 divisor64 raw) (2 * raw) 131 half_ulp.

(** A predicate on every magnitude of a 16-bit value, 0 to 32768. *)
Definition forall_magnitude (p : Z -> bool) : bool :=
forall_below 128 (fun hi => forall_below 256 (fun lo => p (256 * hi + lo)))
&& p 32768.

End Gyro.

(** [q] is finite and within [eps] of [n / d]. *)
Definition within (q : spec_float) (n : Z) (d : positive) (eps : Q) : Prop :=
Float.is_finite q = true /\ (Qabs (Float.to_Q q - (n # d)) <= eps)%Q.

(** [rate] is what [read] makes of the raw rate [raw]: the quotient by 65.5
    as the source computes it, which is within half a unit in the last
    place of [raw / 65.5]. *)
Definition rate_of {P : Platform} (raw : Z) (rate : spec_float) : Prop :=
Ints.in_int16 raw /\
rate = scale_gyro raw /\
within rate (2 * raw) 131 Gyro.half_ulp.

(** * Part III: proofs *)

(** ** Running the register layer *)
Section Runs.

Context {T : Transport}.
Import Ints.

Lemma outcome_ok {A} (r : result T A) a d tr :
outcome r = Some (a, d, tr) ->
exists w, r = Ok a w /\ drv w = d /\ trace w = tr.
Proof.
destruct r as [a' w| |]; cbn [outcome]; intros E; inversion E; subst.
exists w. repeat split.
Qed.

Lemma read_buffer_run addr reg width len (w : World T) :
  BusIO.read_buffer (BusIO.Adafruit_BusIO_Register (Some addr) reg width) len w
  = Ok (answer_of addr reg len w) (after_read addr reg len w).
Proof. reflexivity. Qed.

Lemma read_run addr reg width (w : World T) :
  BusIO.read (BusIO.Adafruit_BusIO_Register (Some addr) reg width) w
  = Ok (BusIO.value_of (answer_of addr reg width w)) (after_read addr reg width w).
Proof. reflexivity. Qed.

Lemma write_run addr reg width value (w : World T) :
  BusIO.write (BusIO.Adafruit_BusIO_Register (Some addr) reg width) value w
  = Ok (fst (hw_write T addr
               (uint8_t reg :: BusIO.le_bytes width (uint32_t value)) (bus w)))
       (after_write addr (uint8_t reg :: BusIO.le_bytes width (uint32_t value)) w).
Proof. reflexivity. Qed.

End Runs.

(** ** The field of the accelerometer range is written alone *)
Module FieldFacts.
Import Ints.
Import Field.

Lemma uint32_testbit v i :
  0 <= i < 32 -> Z.testbit (uint32_t v) i = Z.testbit v i.
Proof.
  intros Hi. unfold uint32_t, wrap_unsigned.
  apply Z.mod_pow2_bits_low. lia.
Qed.

Lemma written_byte_testbit val data i :
  0 <= i < 8 ->
  Z.testbit (written_byte val data) i =
    if (3 <=? i) && (i <? 5) then Z.testbit data (i - 3) else Z.testbit val i.
Proof.
  intros Hi. unfold written_byte, updated.
  change (Z.shiftl 1 2 - 1) with 3.
  change (uint32_t (Z.lnot (uint32_t (Z.shiftl 3 3)))) with 4294967271.
  rewrite Z.land_spec.
  replace (Z.testbit 255 i) with true
    by (symmetry; change 255 with (Z.ones 8); apply Z.ones_spec_low; lia).
  rewrite andb_true_r, uint32_testbit by lia.
  rewrite Z.lor_spec, Z.land_spec, uint32_testbit by lia.
  rewrite Z.shiftl_spec by lia. rewrite Z.land_spec.
  assert (Hcases : i = 0 \/ i = 1 \/ i = 2 \/ i = 3 \/ i = 4 \/ i = 5 \/ i = 6 \/ i = 7)
    by lia.
  destruct Hcases as [->|[->|[->|[->|[->|[->|[->| ->]]]]]]];
    rewrite ?uint32_testbit by lia;
    match goal with
    | |- context [Z.testbit val ?k] => generalize (Z.testbit val k)
    end;
    match goal with
    | |- context [Z.testbit (uint32_t data) ?k] =>
        generalize (Z.testbit (uint32_t data) k)
    | |- context [Z.testbit data ?k] => generalize (Z.testbit data k)
    end;
    intros new old; vm_compute; destruct old, new; reflexivity.
Qed.

(** The byte written is a byte. *)
Lemma written_byte_range val data : 0 <= written_byte val data < 256.
Proof.
  unfold written_byte. change 255 with (Z.ones 8).
  rewrite Z.land_ones by lia. apply Z.mod_pos_bound. lia.
Qed.

(** Bits outside the window keep their value. *)
Lemma written_byte_frame val data i :
  0 <= val < 256 -> i <> 3 -> i <> 4 ->
  Z.testbit (written_byte val data) i = Z.testbit val i.
Proof.
  intros Hval H3 H4.
  destruct (Z.ltb_spec i 0) as [Hneg|Hpos].
  { rewrite !Z.testbit_neg_r by lia. reflexivity. }
  destruct (Z.ltb_spec i 8) as [Hlow|Hhigh].
  - rewrite written_byte_testbit by lia.
    destruct (Z.leb_spec 3 i), (Z.ltb_spec i 5); cbn [andb]; try reflexivity; lia.
  - pose proof (written_byte_range val data) as Hb.
    assert (Hbig : forall v, 0 <= v < 256 -> Z.testbit v i = false).
    { intros v Hv. destruct (Z.eq_dec v 0) as [->|Hnz]; [apply Z.bits_0|].
      apply Z.bits_above_log2; [lia|].
      assert (Z.log2 v < 8) by (apply Z.log2_lt_pow2; lia). lia. }
    rewrite !Hbig by lia. reflexivity.
Qed.

(** The window holds the value written. *)
Lemma extracted_written val data :
  0 <= data < 4 -> extracted (written_byte val data) = data.
Proof.
  intros Hdata. unfold extracted. change (Z.shiftl 1 2 - 1) with (Z.ones 2).
  apply Z.bits_inj'. intros i Hi.
  rewrite Z.land_spec, Z.shiftr_spec by lia.
  destruct (Z.ltb_spec i 2) as [Hlow|Hhigh].
  - rewrite Z.ones_spec_low, andb_true_r by lia.
    rewrite written_byte_testbit by lia.
    replace ((3 <=? i + 3) && (i + 3 <? 5)) with true
      by (symmetry; apply andb_true_intro; split;
          [apply Z.leb_le|apply Z.ltb_lt]; lia).
    f_equal. lia.
  - rewrite Z.ones_spec_high, andb_false_r by lia.
    symmetry. destruct (Z.eq_dec data 0) as [->|Hnz]; [apply Z.bits_0|].
    apply Z.bits_above_log2; [lia|].
    assert (Z.log2 data < 2) by (apply Z.log2_lt_pow2; lia). lia.
Qed.

End FieldFacts.

(** ** The range setting *)
Section DriverRuns.

Context {H : Header} {P : Platform} {T : Transport}.
Import Ints.

Lemma getAccelerometerRange_run (w : World T) addr :
  i2c_dev (drv w) = Some addr ->
  getAccelerometerRange w
  = Ok (Field.extracted
          (BusIO.value_of (answer_of addr MPU6050_ACCEL_CONFIG 1 w)))
       (after_read addr MPU6050_ACCEL_CONFIG 1 w).
Proof.
  intros Hdev. unfold getAccelerometerRange, bind, this.
  rewrite Hdev. reflexivity.
Qed.

Lemma setAccelerometerRange_run (w : World T) addr new_range :
  i2c_dev (drv w) = Some addr ->
  setAccelerometerRange new_range w
  = Ok tt
      (after_write addr
         [uint8_t MPU6050_ACCEL_CONFIG;
          Field.written_byte
            (BusIO.value_of (answer_of addr MPU6050_ACCEL_CONFIG 1 w))
            new_range]
         (after_read addr MPU6050_ACCEL_CONFIG 1 w)).
Proof.
  intros Hdev. unfold setAccelerometerRange, bind, this.
  rewrite Hdev. reflexivity.
Qed.

End DriverRuns.

Lemma valid_range_fits `{Header} (r : mpu6050_range_t) :
ranges_fit_field -> In r valid_ranges -> 0 <= r < 4.
Proof.
intros [Hfit _] Hin.
rewrite Forall_forall in Hfit. apply Hfit. exact Hin.
Qed.

Lemma value_of_byte (v : Z) :
0 <= v < 256 -> BusIO.value_of (BusIO.received 1 (Some [v])) = v.
Proof.
intros Hv. cbn [BusIO.received length Nat.eqb map BusIO.value_of].
unfold BusIO.le_value. cbn [fold_right].
unfold Ints.uint8_t, Ints.uint32_t, Ints.wrap_unsigned.
rewrite (Z.mod_small v (2 ^ 8)) by lia.
rewrite Z.shiftl_0_l, Z.lor_0_l. apply Z.mod_small. lia.
Qed.

Lemma datasheet_ranges_fit : @ranges_fit_field datasheet.
Proof.
split; unfold valid_ranges.
- repeat constructor; cbn; lia.
- repeat constructor; cbn; intuition lia.
Qed.

Lemma chip_stores_accel_config (c : Chip.config) (addr : Z) :
Chip.present c = true ->
stores_register (Chip.transport c) addr 0x1C.
Proof.
intros Hp b v Hv. destruct c as [p who latency sample].
cbn in Hp. subst p. cbn.
unfold Chip.load, Chip.store. cbn.
rewrite Z.mod_small by lia. reflexivity.
Qed.

Lemma int16_range (v : Z) : Ints.in_int16 (Ints.int16_t v).
Proof.
unfold Ints.in_int16, Ints.int16_t, Ints.wrap_signed, Ints.INT16_MIN, Ints.INT16_MAX.
change (2 ^ (16 - 1)) with 32768. change (2 ^ 16) with 65536.
pose proof (Z.mod_pos_bound (v + 32768) 65536 ltac:(lia)). lia.
Qed.

Lemma extracted_range (v : Z) : 0 <= Field.extracted v < 4.
Proof.
unfold Field.extracted. change (Z.shiftl 1 2 - 1) with (Z.ones 2).
rewrite Z.land_ones by lia. apply Z.mod_pos_bound. lia.
Qed.

(** C2: for each of the four range values, writing it with
    [setAccelerometerRange] and reading with [getAccelerometerRange] returns
    it, on a device that keeps the accelerometer configuration register. *)
Theorem set_then_get_accelerometer_range
{H : Header} {T : Transport} (w : World T) (addr : Z) (r : mpu6050_range_t) :
ranges_fit_field ->
In r valid_ranges ->
i2c_dev (drv w) = Some addr ->
stores_register T addr (Ints.uint8_t MPU6050_ACCEL_CONFIG) ->
exists w1 w2,
  setAccelerometerRange r w = Ok tt w1 /\
  getAccelerometerRange w1 = Ok r w2.
Proof.
intros Hfit Hin Hdev Hstore.
pose proof (valid_range_fits r Hfit Hin) as Hr.
set (w0 := after_read addr MPU6050_ACCEL_CONFIG 1 w).
set (v := Field.written_byte
            (BusIO.value_of (answer_of addr MPU6050_ACCEL_CONFIG 1 w)) r).
set (w1 := after_write addr [Ints.uint8_t MPU6050_ACCEL_CONFIG; v] w0).
exists w1, (after_read addr MPU6050_ACCEL_CONFIG 1 w1).
split; [exact (setAccelerometerRange_run w addr r Hdev)|].
rewrite (getAccelerometerRange_run w1 addr Hdev).
assert (Hback : Field.extracted
                  (BusIO.value_of (answer_of addr MPU6050_ACCEL_CONFIG 1 w1)) = r).
{ unfold answer_of, w1, after_write. cbn [bus].
  rewrite Hstore by apply FieldFacts.written_byte_range.
  rewrite value_of_byte by apply FieldFacts.written_byte_range.
  apply FieldFacts.extracted_written. exact Hr. }
rewrite Hback. reflexivity.
Qed.

Lemma set_then_get_accelerometer_range_witness :
exists w1 w2,
  setAccelerometerRange (H := datasheet) 2 (attached (Chip.mpu6050 0 [])) = Ok tt w1 /\
  getAccelerometerRange (H := datasheet) w1 = Ok 2 w2.
Proof.
apply (set_then_get_accelerometer_range
         (H := datasheet) (attached (Chip.mpu6050 0 [])) 0x69 2).
- exact datasheet_ranges_fit.
- cbn. auto.
- reflexivity.
- apply chip_stores_accel_config. reflexivity.
Defined.

(** C9: [setAccelerometerRange] reads the accelerometer configuration
    register and writes it back once; whatever byte the register held and
    whatever the argument, every bit of the byte written other than bits 3
    and 4 is the bit that was read. *)
Theorem set_accelerometer_range_frame
{H : Header} {T : Transport} (w : World T) (addr v0 : Z) (r : mpu6050_range_t) :
i2c_dev (drv w) = Some addr ->
0 <= v0 < 256 ->
fst (hw_write_then_read T addr [Ints.uint8_t MPU6050_ACCEL_CONFIG] 1 (bus w))
  = Some [v0] ->
exists v1 ok w',
  setAccelerometerRange r w = Ok tt w' /\
  drv w' = drv w /\
  trace w' = trace w ++
    [EvRead addr [Ints.uint8_t MPU6050_ACCEL_CONFIG] 1 (Some [v0]);
     EvWrite addr [Ints.uint8_t MPU6050_ACCEL_CONFIG; v1] ok] /\
  0 <= v1 < 256 /\
  (forall i, i <> 3 -> i <> 4 -> Z.testbit v1 i = Z.testbit v0 i).
Proof.
intros Hdev Hv0 Hread.
assert (Hans : answer_of addr MPU6050_ACCEL_CONFIG 1 w = Some [v0]).
{ unfold answer_of. rewrite Hread. cbn.
  unfold Ints.uint8_t, Ints.wrap_unsigned. rewrite Z.mod_small by lia.
  reflexivity. }
assert (Hval : BusIO.value_of (answer_of addr MPU6050_ACCEL_CONFIG 1 w) = v0).
{ unfold answer_of. rewrite Hread. apply value_of_byte. exact Hv0. }
pose proof (setAccelerometerRange_run w addr r Hdev) as Hrun.
rewrite Hval in Hrun.
exists (Field.written_byte v0 r). eexists. eexists.
split; [exact Hrun|].
split; [reflexivity|].
split.
{ unfold after_write, after_read. cbn [trace bus].
  fold (answer_of addr MPU6050_ACCEL_CONFIG 1 w).
  rewrite Hans, <- app_assoc. reflexivity. }
split; [apply FieldFacts.written_byte_range|].
intros i H3 H4. apply FieldFacts.written_byte_frame; assumption.
Qed.

Lemma set_accelerometer_range_frame_witness :
exists v1 ok w',
  setAccelerometerRange (H := datasheet) 3 (attached (Chip.mpu6050 0 [])) = Ok tt w' /\
  drv w' = drv (attached (Chip.mpu6050 0 [])) /\
  trace w' = [EvRead 0x69 [0x1C] 1 (Some [0]); EvWrite 0x69 [0x1C; v1] ok] /\
  0 <= v1 < 256 /\
  (forall i, i <> 3 -> i <> 4 -> Z.testbit v1 i = Z.testbit 0 i).
Proof.
apply (set_accelerometer_range_frame
         (H := datasheet) (attached (Chip.mpu6050 0 [])) 0x69 0 3).
- reflexivity.
- lia.
- reflexivity.
Defined.

(** ** Running [begin] and [_init] *)
Section InitRuns.

Context {H : Header} {T : Transport}.
Import Ints.

Lemma await_reset_step addr fuel (w : World T) :
await_reset (S fuel) (power_mgmt_1_of addr) w =
  if power_mgmt_read addr w =? 0x40
  then Ok tt (after_read addr MPU6050_PWR_MGMT_1 1 w)
  else await_reset fuel (power_mgmt_1_of addr) (poll_again addr w).
Proof.
cbn [await_reset]. unfold bind at 1. unfold power_mgmt_1_of at 1.
rewrite read_run. fold (power_mgmt_read addr w).
destruct (power_mgmt_read addr w =? 0x40); reflexivity.
Qed.

(** The loop spends all its fuel when no poll sees the post-reset value. *)
Lemma await_reset_spins addr fuel : forall w : World T,
(forall j, (j < fuel)%nat -> ~ reset_done addr (Nat.iter j (poll_again addr) w)) ->
await_reset fuel (power_mgmt_1_of addr) w = OutOfFuel.
Proof.
induction fuel as [|fuel IH]; intros w Hnot; [reflexivity|].
rewrite await_reset_step.
destruct (Z.eqb_spec (power_mgmt_read addr w) 0x40) as [Hdone|_].
- exfalso. apply (Hnot 0%nat); [lia|exact Hdone].
- apply IH. intros j Hj. rewrite <- Nat.iter_succ_r. apply Hnot. lia.
Qed.

(** The loop returns at the first poll that sees the post-reset value. *)
Lemma await_reset_returns addr k : forall fuel (w : World T),
(k < fuel)%nat ->
(forall j, (j < k)%nat -> ~ reset_done addr (Nat.iter j (poll_again addr) w)) ->
reset_done addr (Nat.iter k (poll_again addr) w) ->
await_reset fuel (power_mgmt_1_of addr) w =
  Ok tt (after_read addr MPU6050_PWR_MGMT_1 1 (Nat.iter k (poll_again addr) w)).
Proof.
induction k as [|k IH]; intros fuel w Hk Hnot Hdone;
  (destruct fuel as [|fuel]; [lia|]); rewrite await_reset_step.
- change (Nat.iter 0 (poll_again addr) w) with w in *.
  unfold reset_done in Hdone. rewrite Hdone. reflexivity.
- destruct (Z.eqb_spec (power_mgmt_read addr w) 0x40) as [Hnow|_].
  + exfalso. apply (Hnot 0%nat); [lia|exact Hnow].
  + rewrite Nat.iter_succ_r. apply IH.
    * lia.
    * intros j Hj. rewrite <- Nat.iter_succ_r. apply Hnot. lia.
    * rewrite <- Nat.iter_succ_r. exact Hdone.
Qed.

(** The loop returns only so. *)
Lemma await_reset_inv addr fuel : forall (w : World T) u w',
await_reset fuel (power_mgmt_1_of addr) w = Ok u w' ->
exists k, (k < fuel)%nat /\
  (forall j, (j < k)%nat -> ~ reset_done addr (Nat.iter j (poll_again addr) w)) /\
  reset_done addr (Nat.iter k (poll_again addr) w) /\
  w' = after_read addr MPU6050_PWR_MGMT_1 1 (Nat.iter k (poll_again addr) w).
Proof.
induction fuel as [|fuel IH]; intros w u w' Hrun; [discriminate|].
rewrite await_reset_step in Hrun.
destruct (Z.eqb_spec (power_mgmt_read addr w) 0x40) as [Hnow|Hlater].
- exists 0%nat. repeat split.
  + lia.
  + intros j Hj. lia.
  + exact Hnow.
  + inversion Hrun. reflexivity.
- destruct (IH _ _ _ Hrun) as (k & Hk & Hnot & Hdone & Hw').
  exists (S k). rewrite Nat.iter_succ_r. repeat split.
  + lia.
  + intros [|j] Hj; [exact Hlater|].
    rewrite Nat.iter_succ_r. apply Hnot. lia.
  + exact Hdone.
  + exact Hw'.
Qed.

Lemma init_run fuel sensorID (w : World T) addr :
i2c_dev (drv w) = Some addr ->
_init fuel sensorID w =
  if negb (chip_id_read addr w =? MPU6050_DEVICE_ID)
  then Ok false (after_read addr MPU6050_WHO_AM_I 1 w)
  else
    match await_reset fuel (power_mgmt_1_of addr)
            (reset_written addr sensorID w) with
    | Ok _ w' => Ok true (configured addr w')
    | OutOfFuel => OutOfFuel
    | Undefined => Undefined
    end.
Proof.
intros Hdev. unfold _init, bind at 1, this. rewrite Hdev.
unfold bind at 1. rewrite read_run. fold (chip_id_read addr w).
destruct (negb (chip_id_read addr w =? MPU6050_DEVICE_ID)); [reflexivity|].
unfold bind at 1. cbn [assign].
unfold bind at 1. rewrite write_run.
unfold bind at 1.
change (await_reset fuel _ _) with
  (await_reset fuel (power_mgmt_1_of addr) (reset_written addr sensorID w)).
destruct (await_reset fuel (power_mgmt_1_of addr) (reset_written addr sensorID w));
  reflexivity.
Qed.

Lemma begin_run fuel i2c_address sensorID (w : World T) :
begin fuel i2c_address sensorID w =
  if negb (opened (uint8_t i2c_address) w)
  then Ok false (after_begin (uint8_t i2c_address) w)
  else _init fuel sensorID (after_begin (uint8_t i2c_address) w).
Proof.
unfold begin, bind at 1. cbn [assign].
unfold bind at 1, this. cbn [drv with_i2c_dev i2c_dev].
unfold bind at 1, BusIO.i2c_begin, bind at 1. cbn [BusIO.deref ret].
unfold bind at 1. cbn [BusIO.log bus].
unfold opened, after_begin.
destruct (fst (hw_begin T (uint8_t i2c_address) (bus w))); reflexivity.
Qed.

End InitRuns.

(** ** Initialisation *)

(** C3: when the identification register reads as anything but the device
    identifier, [begin] returns false, with a result and for any fuel; it
    returns true only if the transport opened and the identifier was read. *)
Theorem begin_identity_check
{H : Header} {T : Transport} (fuel : nat) (i2c_address sensorID : Z) (w : World T) :
let addr := Ints.uint8_t i2c_address in
let w1 := after_begin addr w in
(opened addr w = true ->
 chip_id_read addr w1 <> MPU6050_DEVICE_ID ->
 begin fuel i2c_address sensorID w
 = Ok false (after_read addr MPU6050_WHO_AM_I 1 w1)) /\
(opened addr w = false ->
 begin fuel i2c_address sensorID w = Ok false w1) /\
(forall w',
 begin fuel i2c_address sensorID w = Ok true w' ->
 opened addr w = true /\ chip_id_read addr w1 = MPU6050_DEVICE_ID).
Proof.
intros addr w1. rewrite begin_run. fold addr. fold w1.
assert (Hdev : i2c_dev (drv w1) = Some addr) by reflexivity.
split; [|split].
- intros Hopen Hid. rewrite Hopen. cbn [negb].
  rewrite (init_run fuel sensorID w1 addr Hdev).
  apply Z.eqb_neq in Hid. rewrite Hid. reflexivity.
- intros Hclosed. rewrite Hclosed. reflexivity.
- intros w' Hrun.
  destruct (opened addr w); cbn [negb] in Hrun; [|discriminate].
  split; [reflexivity|].
  rewrite (init_run fuel sensorID w1 addr Hdev) in Hrun.
  destruct (Z.eqb_spec (chip_id_read addr w1) MPU6050_DEVICE_ID) as [Hid|Hid];
    cbn [negb] in Hrun; [exact Hid|discriminate].
Qed.

Lemma begin_identity_check_witness :
begin (H := datasheet) 5 0x69 10 (boot (Chip.other_chip 0x71))
= Ok false
    (after_read 0x69 0x75 1 (after_begin 0x69 (boot (Chip.other_chip 0x71)))).
Proof.
apply (proj1 (begin_identity_check
                (H := datasheet) 5 0x69 10 (boot (Chip.other_chip 0x71)))).
- reflexivity.
- vm_compute. discriminate.
Defined.

(** C5: once the identity check has passed, [begin] writes the reset bit
    0x80 to the power-management register and polls it, a 10 ms delay after
    each poll that did not read 0x40.  It returns, with true, exactly when a
    poll reads 0x40, after any number of polls; it spends any fuel without
    returning while none does, so on a transport that never shows 0x40
    there it never returns. *)
Theorem begin_reset_poll_has_no_timeout
{H : Header} {T : Transport} (i2c_address sensorID : Z) (w : World T) :
let addr := Ints.uint8_t i2c_address in
let w1 := after_begin addr w in
let w2 := reset_written addr sensorID w1 in
let polls k := Nat.iter k (poll_again addr) w2 in
opened addr w = true ->
chip_id_read addr w1 = MPU6050_DEVICE_ID ->
(exists ok,
   trace w2 = trace w1 ++
     [EvRead addr [Ints.uint8_t MPU6050_WHO_AM_I] 1
        (answer_of addr MPU6050_WHO_AM_I 1 w1);
      EvWrite addr [Ints.uint8_t MPU6050_PWR_MGMT_1; 0x80] ok]) /\
(forall k,
   trace (polls (S k)) = trace (polls k) ++
     [EvRead addr [Ints.uint8_t MPU6050_PWR_MGMT_1] 1
        (answer_of addr MPU6050_PWR_MGMT_1 1 (polls k));
      EvDelay 10]) /\
(forall fuel k,
   (k < fuel)%nat ->
   (forall j, (j < k)%nat -> ~ reset_done addr (polls j)) ->
   reset_done addr (polls k) ->
   begin fuel i2c_address sensorID w
   = Ok true (configured addr (after_read addr MPU6050_PWR_MGMT_1 1 (polls k)))) /\
(forall fuel w',
   begin fuel i2c_address sensorID w = Ok true w' ->
   exists k, (k < fuel)%nat /\
     (forall j, (j < k)%nat -> ~ reset_done addr (polls j)) /\
     reset_done addr (polls k) /\
     w' = configured addr (after_read addr MPU6050_PWR_MGMT_1 1 (polls k))) /\
(forall fuel,
   (forall j, (j < fuel)%nat -> ~ reset_done addr (polls j)) ->
   begin fuel i2c_address sensorID w = OutOfFuel) /\
(never_reset T addr ->
 forall fuel, begin fuel i2c_address sensorID w = OutOfFuel).
Proof.
intros addr w1 w2 polls Hopen Hid.
assert (Hdev : i2c_dev (drv w1) = Some addr) by reflexivity.
assert (Hbegin : forall fuel,
  begin fuel i2c_address sensorID w =
    match await_reset fuel (power_mgmt_1_of addr) w2 with
    | Ok _ w' => Ok true (configured addr w')
    | OutOfFuel => OutOfFuel
    | Undefined => Undefined
    end).
{ intros fuel. rewrite begin_run. fold addr. rewrite Hopen. cbn [negb].
  fold w1. rewrite (init_run fuel sensorID w1 addr Hdev).
  rewrite Hid, Z.eqb_refl. reflexivity. }
assert (Hspin : forall fuel,
  (forall j, (j < fuel)%nat -> ~ reset_done addr (polls j)) ->
  begin fuel i2c_address sensorID w = OutOfFuel).
{ intros fuel Hnot. rewrite Hbegin.
  rewrite (await_reset_spins addr fuel w2 Hnot). reflexivity. }
split; [|split; [|split; [|split; [|split]]]].
- eexists. unfold w2, reset_written, after_write, identified, after_read.
  cbn [trace bus]. rewrite <- app_assoc. reflexivity.
- intros k. unfold polls. cbn [Nat.iter nat_rect].
  unfold poll_again at 1, after_delay, after_read. cbn [trace bus].
  rewrite <- app_assoc. reflexivity.
- intros fuel k Hk Hnot Hdone. rewrite Hbegin.
  rewrite (await_reset_returns addr k fuel w2 Hk Hnot Hdone). reflexivity.
- intros fuel w' Hrun. rewrite Hbegin in Hrun.
  destruct (await_reset fuel (power_mgmt_1_of addr) w2) as [u w3| |] eqn:Hloop;
    try discriminate.
  destruct (await_reset_inv addr fuel w2 u w3 Hloop) as (k & Hk & Hnot & Hdone & Hw3).
  exists k. repeat split; try assumption.
  inversion Hrun. subst w3. reflexivity.
- exact Hspin.
- intros Hnever fuel. apply Hspin. intros j _ Hdone.
  exact (Hnever (bus (polls j)) Hdone).
Qed.

Lemma begin_reset_poll_has_no_timeout_witness :
begin (H := datasheet) 1000 0x69 10 (boot Chip.stuck_in_reset) = OutOfFuel.
Proof.
refine (proj2 (proj2 (proj2 (proj2 (proj2
  (begin_reset_poll_has_no_timeout
     (H := datasheet) 0x69 10 (boot Chip.stuck_in_reset) _ _))))) _ 1000%nat).
- reflexivity.
- reflexivity.
- intros b. vm_compute. discriminate.
Defined.

(** With a chip that takes three delays to come out of reset the loop polls
    four times. *)
Example begin_polls_until_reset :
exists w',
  begin (H := datasheet) 4 0x69 10 (boot (Chip.mpu6050 3 [])) = Ok true w' /\
  trace w' =
    [EvBegin 0x69 true; EvRead 0x69 [0x75] 1 (Some [0x68]);
     EvWrite 0x69 [0x6B; 0x80] true;
     EvRead 0x69 [0x6B] 1 (Some [0x80]); EvDelay 10;
     EvRead 0x69 [0x6B] 1 (Some [0x80]); EvDelay 10;
     EvRead 0x69 [0x6B] 1 (Some [0x80]); EvDelay 10;
     EvRead 0x69 [0x6B] 1 (Some [0x40]);
     EvWrite 0x69 [0x19; 0x00] true; EvWrite 0x69 [0x1A; 0x00] true;
     EvWrite 0x69 [0x1B; 0x08] true; EvWrite 0x69 [0x1C; 0x00] true;
     EvWrite 0x69 [0x6B; 0x01] true; EvDelay 100] /\
  begin (H := datasheet) 3 0x69 10 (boot (Chip.mpu6050 3 [])) = OutOfFuel.
Proof.
destruct (outcome_ok
  (begin (H := datasheet) 4 0x69 10 (boot (Chip.mpu6050 3 []))) true _ _
  ltac:(vm_compute; reflexivity)) as (w' & Hrun & _ & Htrace).
exists w'. split; [exact Hrun|]. split; [exact Htrace|].
vm_compute. reflexivity.
Qed.

(** Without a transport [begin] returns false and asks the chip nothing. *)
Example begin_fails_without_transport :
exists w',
  begin (H := datasheet) 4 0x69 10 (boot Chip.absent) = Ok false w' /\
  trace w' = [EvBegin 0x69 false].
Proof.
destruct (outcome_ok
  (begin (H := datasheet) 4 0x69 10 (boot Chip.absent)) false _ _
  ltac:(vm_compute; reflexivity)) as (w' & Hrun & _ & Htrace).
exists w'. split; [exact Hrun|exact Htrace].
Qed.

(** C6, as stated, fails at the largest 32-bit base identifier: [begin]
    succeeds and the gyroscope identifier is not the base plus one. *)
Lemma begin_ids_wrap_at_int32_max :
exists w',
  begin (H := datasheet) 1 0x69 Ints.INT32_MAX (boot (Chip.mpu6050 0 []))
  = Ok true w' /\
  ~ ids_derived_from Ints.INT32_MAX (drv w').
Proof.
destruct (outcome_ok
  (begin (H := datasheet) 1 0x69 Ints.INT32_MAX (boot (Chip.mpu6050 0 [])))
  true _ _ ltac:(vm_compute; reflexivity)) as (w' & Hrun & Hdrv & _).
exists w'. split; [exact Hrun|].
intros (_ & Hgyro & _). rewrite Hdrv in Hgyro.
vm_compute in Hgyro. discriminate Hgyro.
Qed.

(** C6, amended: for every 32-bit base identifier [b] with [b + 2] still a
    32-bit integer, a [begin] that returns true has stored the identifiers
    [b], [b + 1] and [b + 2]. *)
Theorem begin_derives_sensor_ids
{H : Header} {T : Transport} (fuel : nat) (i2c_address b : Z) (w w' : World T) :
Ints.in_int32 b ->
b + 2 <= Ints.INT32_MAX ->
begin fuel i2c_address b w = Ok true w' ->
ids_derived_from b (drv w').
Proof.
intros [Hlo Hhi] Hfit Hrun.
set (addr := Ints.uint8_t i2c_address) in *.
rewrite begin_run in Hrun. fold addr in Hrun.
destruct (opened addr w); cbn [negb] in Hrun; [|discriminate].
rewrite (init_run fuel b (after_begin addr w) addr eq_refl) in Hrun.
destruct (negb (chip_id_read addr (after_begin addr w) =? MPU6050_DEVICE_ID));
  [discriminate|].
destruct (await_reset fuel (power_mgmt_1_of addr)
            (reset_written addr b (after_begin addr w)))
  as [u w3| |] eqn:Hloop; try discriminate.
destruct (await_reset_inv addr fuel _ u w3 Hloop) as (k & _ & _ & _ & Hw3).
inversion Hrun as [Hw']. clear Hrun.
assert (Hdrv : forall j,
  drv (Nat.iter j (poll_again addr) (reset_written addr b (after_begin addr w)))
  = with_sensorids b (Ints.int32_t (b + 1)) (Ints.int32_t (b + 2))
      (with_i2c_dev (Some addr) (drv w))).
{ induction j as [|j IH]; [reflexivity|]. cbn [Nat.iter nat_rect].
  unfold poll_again at 1. cbn [after_delay after_read drv]. exact IH. }
subst w3. cbn [configured after_delay after_write after_read drv].
rewrite Hdrv. unfold ids_derived_from. cbn [with_sensorids _sensorid_accel
  _sensorid_gyro _sensorid_temp].
unfold Ints.int32_t, Ints.wrap_signed, Ints.INT32_MIN, Ints.INT32_MAX in *.
change (2 ^ (32 - 1)) with 2147483648. change (2 ^ 32) with 4294967296.
rewrite !Z.mod_small by lia. lia.
Qed.

Lemma begin_derives_sensor_ids_witness :
exists w',
  begin (H := datasheet) 1 0x69 10 (boot (Chip.mpu6050 0 [])) = Ok true w' /\
  ids_derived_from 10 (drv w') /\
  _sensorid_accel (drv w') = 10 /\
  _sensorid_gyro (drv w') = 11 /\
  _sensorid_temp (drv w') = 12.
Proof.
destruct (outcome_ok
  (begin (H := datasheet) 1 0x69 10 (boot (Chip.mpu6050 0 []))) true _ _
  ltac:(vm_compute; reflexivity)) as (w' & Hrun & Hdrv & _).
exists w'. split; [exact Hrun|].
split.
- apply (begin_derives_sensor_ids
           (H := datasheet) 1 0x69 10 (boot (Chip.mpu6050 0 [])) w').
  + unfold Ints.in_int32, Ints.INT32_MIN, Ints.INT32_MAX. lia.
  + unfold Ints.INT32_MAX. lia.
  + exact Hrun.
- rewrite Hdrv. repeat split.
Defined.

(** ** Events *)

Lemma getEvent_run {P : Platform} {T : Transport} (w : World T) :
getEvent w = Ok (true, (accel_event (drv w), gyro_event (drv w), temp_event (drv w))) w.
Proof. unfold getEvent, bind, this. reflexivity. Qed.


(** The rational the single-precision constant [9.80665F] denotes. *)
Lemma gravity_value :
SENSORS_GRAVITY_STANDARD = S754_finite false 10283018 (-20) /\
(Qabs.Qabs (Float.to_Q SENSORS_GRAVITY_STANDARD - (980665 # 100000)) <= 1 # 2097152)%Q.
Proof.
split; [vm_compute; reflexivity|].
apply Qle_bool_iff. vm_compute. reflexivity.
Qed.

(** C8: in every world [getEvent] returns the acceleration event with each
    cached scaled acceleration multiplied by [SENSORS_GRAVITY_STANDARD]
    (the single-precision number nearest 9.80665), the gyroscope event with
    the cached scaled rates as they are, and the temperature event with the
    cached temperature. *)
Theorem getEvent_fills_events
{P : Platform} {T : Transport} (w : World T) :
exists accel gyro_ev temp,
  getEvent w = Ok (true, (accel, gyro_ev, temp)) w /\
  payload accel = acceleration {|
    x := Float.mul float (accX (drv w)) SENSORS_GRAVITY_STANDARD;
    y := Float.mul float (accY (drv w)) SENSORS_GRAVITY_STANDARD;
    z := Float.mul float (accZ (drv w)) SENSORS_GRAVITY_STANDARD |} /\
  payload gyro_ev = gyro {|
    x := gyroX (drv w); y := gyroY (drv w); z := gyroZ (drv w) |} /\
  payload temp = temperature_payload (temperature (drv w)) /\
  type accel = SENSOR_TYPE_ACCELEROMETER /\
  type gyro_ev = SENSOR_TYPE_GYROSCOPE /\
  type temp = SENSOR_TYPE_AMBIENT_TEMPERATURE /\
  sensor_id accel = _sensorid_accel (drv w) /\
  sensor_id gyro_ev = _sensorid_gyro (drv w) /\
  sensor_id temp = _sensorid_temp (drv w) /\
  (Qabs.Qabs (Float.to_Q SENSORS_GRAVITY_STANDARD - (980665 # 100000))
   <= 1 # 2097152)%Q.
Proof.
exists (accel_event (drv w)), (gyro_event (drv w)), (temp_event (drv w)).
split; [apply getEvent_run|].
repeat split; try reflexivity.
apply (proj2 gravity_value).
Qed.

(** C10: [getEvent] returns true in every world, whatever the driver holds
    and whatever happened on the bus; the setter of the range returns
    nothing and the getter a 2-bit value, whether or not their bus
    transactions succeeded. *)
Theorem getEvent_always_true
{H : Header} {P : Platform} {T : Transport} (w : World T) :
(exists events, getEvent w = Ok (true, events) w) /\
(forall addr r, i2c_dev (drv w) = Some addr ->
   exists w', setAccelerometerRange r w = Ok tt w') /\
(forall addr, i2c_dev (drv w) = Some addr ->
   exists v w', getAccelerometerRange w = Ok v w' /\ 0 <= v < 4) /\
(forall addr, i2c_dev (drv w) = Some addr ->
   answer_of addr MPU6050_ACCEL_CONFIG 1 w = None ->
   exists w', getAccelerometerRange w = Ok 3 w').
Proof.
split; [|split; [|split]].
- eexists. apply getEvent_run.
- intros addr r Hdev. eexists. apply (setAccelerometerRange_run w addr r Hdev).
- intros addr Hdev. eexists. eexists.
  split; [apply (getAccelerometerRange_run w addr Hdev)|].
  unfold Field.extracted. change (Z.shiftl 1 2 - 1) with (Z.ones 2).
  rewrite Z.land_ones by lia. apply Z.mod_pos_bound. lia.
- intros addr Hdev Hfail. eexists.
  rewrite (getAccelerometerRange_run w addr Hdev), Hfail. reflexivity.
Qed.

(** ** Single-precision arithmetic: conversions of integers and divisions by
    powers of two are exact *)
Module FloatFacts.

Lemma digits_iter_xO p n :
digits2_pos (Pos.iter xO p n) = (digits2_pos p + n)%positive.
Proof.
induction n as [|n IH] using Pos.peano_ind.
- cbn. lia.
- rewrite Pos.iter_succ. cbn [digits2_pos]. rewrite IH. lia.
Qed.

Lemma iter_xO_value p q : Z.pos (Pos.iter xO p q) = Z.pos p * 2 ^ Z.pos q.
Proof.
induction q as [|q IH] using Pos.peano_ind.
- cbn. lia.
- rewrite Pos.iter_succ, Pos2Z.inj_succ, Z.pow_succ_r by lia.
  rewrite Pos2Z.inj_xO, IH. lia.
Qed.

Lemma digits2_lower p : 2 ^ (Z.pos (digits2_pos p) - 1) <= Z.pos p.
Proof.
induction p as [p IH|p IH|]; cbn [digits2_pos].
- rewrite Pos2Z.inj_succ.
  replace (Z.succ (Z.pos (digits2_pos p)) - 1)
    with (Z.succ (Z.pos (digits2_pos p) - 1)) by lia.
  rewrite Z.pow_succ_r by lia. lia.
- rewrite Pos2Z.inj_succ.
  replace (Z.succ (Z.pos (digits2_pos p)) - 1)
    with (Z.succ (Z.pos (digits2_pos p) - 1)) by lia.
  rewrite Z.pow_succ_r by lia. lia.
- cbn. lia.
Qed.

Lemma digits2_small p n :
0 <= n -> Z.pos p < 2 ^ n -> Z.pos (digits2_pos p) <= n.
Proof.
intros Hn Hp. pose proof (digits2_lower p) as Hlow.
assert (Hlt : 2 ^ (Z.pos (digits2_pos p) - 1) < 2 ^ n) by lia.
apply Z.pow_lt_mono_r_iff in Hlt; lia.
Qed.

(** A mantissa of 24 bits with an exponent in range is left as it is. *)
Lemma round_canonical s m e :
digits2_pos m = 24%positive -> -149 <= e <= 104 ->
binary_round_aux 24 128 s (Zpos m) e loc_Exact = S754_finite s m e.
Proof.
intros Hd He.
unfold binary_round_aux, shr_fexp, fexp, emin, Zdigits2.
rewrite Hd.
replace (Z.max (24 + e - 24) (3 - 128 - 24) - e) with 0 by lia.
cbn [shr shr_record_of_loc shr_m loc_of_shr_record round_nearest_even].
unfold Zdigits2. rewrite Hd.
replace (Z.max (24 + e - 24) (3 - 128 - 24) - e) with 0 by lia.
cbn [shr shr_m].
replace (e <=? 128 - 24) with true by (symmetry; apply Z.leb_le; lia).
reflexivity.
Qed.

(** A mantissa of 25 bits that ends in 0 loses that bit. *)
Lemma round_one_bit s m e :
digits2_pos m = 24%positive -> -150 <= e <= 103 ->
binary_round_aux 24 128 s (Zpos m~0) e loc_Exact = S754_finite s m (e + 1).
Proof.
intros Hd He.
unfold binary_round_aux, shr_fexp, fexp, emin, Zdigits2.
cbn [digits2_pos]. rewrite Hd.
replace (Z.max (Z.pos (Pos.succ 24) + e - 24) (3 - 128 - 24) - e) with 1 by lia.
cbn [shr shr_record_of_loc iter_pos shr_1 shr_m loc_of_shr_record
     round_nearest_even orb].
unfold Zdigits2. rewrite Hd.
replace (Z.max (24 + (e + 1) - 24) (3 - 128 - 24) - (e + 1)) with 0 by lia.
cbn [shr shr_m].
replace (e + 1 <=? 128 - 24) with true by (symmetry; apply Z.leb_le; lia).
reflexivity.
Qed.

(** An integer of fewer than 24 bits is converted exactly. *)
Lemma round_integer s p :
Z.pos (digits2_pos p) < 24 ->
exists q, Z.pos q = 24 - Z.pos (digits2_pos p) /\
  binary_round 24 128 s p 0 = S754_finite s (Pos.iter xO p q) (- Z.pos q).
Proof.
intros Hd. unfold binary_round, shl_align, fexp, emin.
destruct (Z.max (Z.pos (digits2_pos p) + 0 - 24) (3 - 128 - 24) - 0)
  as [|q|q] eqn:Hq; try lia.
exists q. split; [lia|].
rewrite round_canonical.
- f_equal. lia.
- rewrite digits_iter_xO. lia.
- lia.
Qed.

(** Division by [2^23 * 2^ey] moves the exponent and nothing else. *)
Lemma div_by_pow2 s m e ey :
digits2_pos m = 24%positive ->
-149 <= e - ey - 24 <= 103 ->
SFdiv 24 128 (S754_finite s m e) (S754_finite false 8388608 ey)
= S754_finite s m (e - ey - 23).
Proof.
intros Hd He.
unfold SFdiv, SFdiv_core_binary.
change (Zdigits2 (Z.pos m)) with (Z.pos (digits2_pos m)). rewrite Hd.
change (Zdigits2 8388608) with 24.
set (e' := Z.min _ _).
assert (He' : e' = e - ey - 24) by (unfold e', fexp, emin; lia).
rewrite He'. clear e' He'.
replace (e - ey - (e - ey - 24)) with 24 by lia.
rewrite Z.shiftl_mul_pow2 by lia.
pose proof (Z_div_mod (Z.pos m * 2 ^ 24) 8388608 eq_refl) as Hdm.
destruct (Z.div_eucl (Z.pos m * 2 ^ 24) 8388608) as [q r].
change (2 ^ 24) with 16777216 in Hdm.
assert (Hq : q = Z.pos m~0) by lia.
assert (Hr : r = 0) by lia.
subst q r.
change (new_location 8388608 0) with loc_Exact.
rewrite xorb_false_r.
rewrite round_one_bit by (assumption || lia).
f_equal. lia.
Qed.

(** The quotient of a 16-bit integer by [2^k], [k] from 1 to 100, in single
    precision: finite and equal to the rational quotient. *)
Lemma div_int16_by_pow2 (raw : Z) (k : positive) :
Ints.in_int16 raw -> Z.pos k <= 100 ->
let q := Float.div float (Float.of_Z float raw)
           (S754_finite false 8388608 (Z.pos k - 23)) in
Float.is_finite q = true /\ (Float.to_Q q == raw # (2 ^ k))%Q.
Proof.
intros [Hlo Hhi] Hk. unfold Ints.INT16_MIN, Ints.INT16_MAX in *.
unfold Float.div, Float.of_Z, float, Float.binary32, Float.prec, Float.emax.
assert (Hmain : forall s p, Z.pos p <= 32768 ->
  let q := SFdiv 24 128 (binary_round 24 128 s p 0)
             (S754_finite false 8388608 (Z.pos k - 23)) in
  Float.is_finite q = true /\
  (Float.to_Q q == (if s then Z.neg p else Z.pos p) # (2 ^ k))%Q).
{ intros s p Hp.
  pose proof (digits2_small p 16 ltac:(lia) ltac:(lia)) as Hd.
  destruct (round_integer s p ltac:(lia)) as (q & Hq & ->).
  cbv zeta. rewrite div_by_pow2.
  2:{ rewrite digits_iter_xO. lia. }
  2:{ lia. }
  split; [reflexivity|].
  replace (- Z.pos q - (Z.pos k - 23) - 23) with (Z.neg (q + k)) by lia.
  cbn [Float.to_Q]. unfold Qeq. cbn [Qnum Qden].
  rewrite !Pos2Z.inj_pow, Pos2Z.inj_add, Z.pow_add_r by lia.
  pose proof (iter_xO_value p q) as Hv.
  destruct s.
  - change (Z.neg (Pos.iter xO p q)) with (- Z.pos (Pos.iter xO p q)).
    change (Z.neg p) with (- Z.pos p). rewrite Hv. ring.
  - rewrite Hv. ring. }
destruct raw as [|p|p].
- cbn. split; reflexivity.
- exact (Hmain false p ltac:(lia)).
- exact (Hmain true p ltac:(lia)).
Qed.

End FloatFacts.

(** ** Reading a sample *)
Section ReadRuns.

Context {H : Header} {P : Platform} {T : Transport}.
Import Ints.

Lemma read_sample_run (w : World T) addr :
i2c_dev (drv w) = Some addr ->
read w =
  match answer_of addr MPU6050_ACCEL_OUT 14 w with
  | None => Undefined
  | Some buffer =>
      let w2 := sampled buffer (after_read addr MPU6050_ACCEL_OUT 14 w) in
      Ok tt (scaled (range_read_back addr w2)
               (after_read addr MPU6050_ACCEL_CONFIG 1 w2))
  end.
Proof.
intros Hdev. unfold read, bind at 1, this. rewrite Hdev.
unfold bind at 1. rewrite read_buffer_run.
destruct (answer_of addr MPU6050_ACCEL_OUT 14 w) as [buffer|]; [|reflexivity].
unfold bind at 1. cbn [assign].
fold (sampled buffer (after_read addr MPU6050_ACCEL_OUT 14 w)).
unfold bind at 1.
rewrite (getAccelerometerRange_run _ addr) by exact Hdev.
reflexivity.
Qed.

End ReadRuns.

(** Whatever the 2-bit field holds is one of the four settings, and the
    chain of tests in [read] selects its divisor. *)
Lemma accel_scale_table {H : Header} (range : mpu6050_range_t) :
ranges_fit_field -> 0 <= range < 4 ->
exists divisor,
  In (range, divisor) accel_divisors /\
  accel_scale range = Float.of_Z float (Z.pos divisor).
Proof.
intros [Hfit Hdup] Hr. unfold valid_ranges in Hfit, Hdup.
repeat match goal with
       | Hf : Forall _ (_ :: _) |- _ => inversion Hf; subst; clear Hf
       end.
repeat match goal with
       | Hn : NoDup (_ :: _) |- _ => inversion Hn; subst; clear Hn
       end.
repeat match goal with
       | Hn : ~ In _ _ |- _ => cbn [In] in Hn
       end.
unfold accel_scale, accel_divisors.
destruct (Z.eqb_spec range MPU6050_RANGE_2_G) as [E2|N2].
{ exists 16384%positive. split; [rewrite E2; cbn; auto|reflexivity]. }
destruct (Z.eqb_spec range MPU6050_RANGE_4_G) as [E4|N4].
{ exists 8192%positive. split; [rewrite E4; cbn; auto|reflexivity]. }
destruct (Z.eqb_spec range MPU6050_RANGE_8_G) as [E8|N8].
{ exists 4096%positive. split; [rewrite E8; cbn; auto|reflexivity]. }
destruct (Z.eqb_spec range MPU6050_RANGE_16_G) as [E16|N16].
{ exists 2048%positive. split; [rewrite E16; cbn; auto|reflexivity]. }
exfalso. lia.
Qed.

Lemma scaled_by_divisor {H : Header} range divisor raw :
In (range, divisor) accel_divisors ->
Ints.in_int16 raw ->
scaled_by divisor raw (scale_accel raw (Float.of_Z float (Z.pos divisor))).
Proof.
intros Hin Hraw. split; [exact Hraw|]. split; [reflexivity|].
unfold accel_divisors in Hin. cbn [In] in Hin.
unfold scale_accel.
destruct Hin as [E|[E|[E|[E|[]]]]]; inversion E; subst divisor.
- exact (FloatFacts.div_int16_by_pow2 raw 14 Hraw ltac:(lia)).
- exact (FloatFacts.div_int16_by_pow2 raw 13 Hraw ltac:(lia)).
- exact (FloatFacts.div_int16_by_pow2 raw 12 Hraw ltac:(lia)).
- exact (FloatFacts.div_int16_by_pow2 raw 11 Hraw ltac:(lia)).
Qed.

(** C1: when the burst read delivers its 14 bytes, [read] returns; the range
    it reads back is one of the four settings, the divisor it applies is the
    one the table gives for that setting (16384, 8192, 4096, 2048 for 2, 4,
    8, 16 g), and each scaled acceleration is the raw 16-bit value divided
    by that divisor, exactly. *)
Theorem read_scales_acceleration
{H : Header} {P : Platform} {T : Transport}
(w : World T) (addr : Z) (buffer : list Z) :
ranges_fit_field ->
i2c_dev (drv w) = Some addr ->
answer_of addr MPU6050_ACCEL_OUT 14 w = Some buffer ->
exists w' range divisor,
  read w = Ok tt w' /\
  range = range_read_back addr
            (sampled buffer (after_read addr MPU6050_ACCEL_OUT 14 w)) /\
  In (range, divisor) accel_divisors /\
  accel_scale range = Float.of_Z float (Z.pos divisor) /\
  scaled_by divisor (rawAccX (drv w')) (accX (drv w')) /\
  scaled_by divisor (rawAccY (drv w')) (accY (drv w')) /\
  scaled_by divisor (rawAccZ (drv w')) (accZ (drv w')).
Proof.
intros Hfit Hdev Hburst.
pose proof (read_sample_run w addr Hdev) as Hrun.
rewrite Hburst in Hrun. cbv zeta in Hrun.
set (w2 := sampled buffer (after_read addr MPU6050_ACCEL_OUT 14 w)) in *.
set (range := range_read_back addr w2) in *.
destruct (accel_scale_table range Hfit (extracted_range _)) as (divisor & Hin & Hscale).
exists (scaled range (after_read addr MPU6050_ACCEL_CONFIG 1 w2)), range, divisor.
split; [exact Hrun|]. split; [reflexivity|].
split; [exact Hin|]. split; [exact Hscale|].
cbn [scaled drv with_scaled after_read rawAccX rawAccY rawAccZ accX accY accZ
     w2 sampled with_raw].
rewrite Hscale.
repeat split; try apply int16_range;
  try (apply (scaled_by_divisor range divisor _ Hin (int16_range _))).
Qed.

Lemma read_scales_acceleration_witness :
exists w' range divisor,
  read (H := datasheet) (P := avr) (attached (Chip.mpu6050 0 cold_sample))
  = Ok tt w' /\
  range = range_read_back (H := datasheet) 0x69
            (sampled cold_sample
               (after_read 0x69 0x3B 14 (attached (Chip.mpu6050 0 cold_sample)))) /\
  In (range, divisor) (accel_divisors (H := datasheet)) /\
  accel_scale (H := datasheet) range = Float.of_Z float (Z.pos divisor) /\
  scaled_by divisor (rawAccX (drv w')) (accX (drv w')) /\
  scaled_by divisor (rawAccY (drv w')) (accY (drv w')) /\
  scaled_by divisor (rawAccZ (drv w')) (accZ (drv w')).
Proof.
apply (read_scales_acceleration
         (H := datasheet) (P := avr)
         (attached (Chip.mpu6050 0 cold_sample)) 0x69 cold_sample).
- exact datasheet_ranges_fit.
- reflexivity.
- reflexivity.
Defined.

(** On the chip, each of the four settings written with
    [setAccelerometerRange] is the one [read] scales by: the raw value 16384
    gives 1, 2, 4 and 8 g. *)
Example read_after_each_range :
forall r g, In (r, g) [(0, 1); (1, 2); (2, 4); (3, 8)] ->
exists w',
  (setAccelerometerRange (H := datasheet) r ;;; read (H := datasheet) (P := avr))
    (attached (Chip.mpu6050 0 cold_sample)) = Ok tt w' /\
  rawAccX (drv w') = 16384 /\
  accX (drv w') = Float.of_Z float g.
Proof.
intros r g Hin. cbn [In] in Hin.
destruct Hin as [E|[E|[E|[E|[]]]]]; inversion E; subst r g;
  match goal with
  | |- exists w', ?run = _ /\ _ =>
      destruct (outcome_ok run tt _ _ ltac:(vm_compute; reflexivity))
        as (w' & Hrun & Hdrv & _);
      exists w'; split; [exact Hrun|rewrite Hdrv; split; reflexivity]
  end.
Qed.

(** ** The temperature, on every 16-bit raw value *)

Lemma forall_below_spec (p : Z -> bool) (n : nat) :
forall_below n p = true ->
forall v, 0 <= v < Z.of_nat n -> p v = true.
Proof.
induction n as [|k IH]; intros Hall v Hv.
- simpl in Hv. lia.
- cbn [forall_below] in Hall. apply andb_prop in Hall as [Hk Hrest].
  destruct (Z.eq_dec v (Z.of_nat k)) as [->|Hne]; [exact Hk|].
  apply IH; [exact Hrest|lia].
Qed.

Lemma forall_int16_spec (p : Z -> bool) :
forall_int16 p = true -> forall v, Ints.in_int16 v -> p v = true.
Proof.
intros Hall v [Hlo Hhi].
unfold Ints.INT16_MIN, Ints.INT16_MAX in *.
pose (u := v + 32768).
assert (Hu : 0 <= u < 65536) by (unfold u; lia).
pose proof (Z.div_mod u 256 ltac:(lia)) as Hdm.
pose proof (Z.mod_pos_bound u 256 ltac:(lia)) as Hm.
assert (Hq : 0 <= u / 256 < 256).
{ split; [apply Z.div_pos; lia|apply Z.div_lt_upper_bound; lia]. }
pose proof (forall_below_spec _ 256 Hall (u / 256) ltac:(lia)) as Hrow.
cbv beta in Hrow.
pose proof (forall_below_spec _ 256 Hrow (u mod 256) ltac:(lia)) as Hcell.
cbv beta in Hcell.
replace (256 * (u / 256) + u mod 256 + Ints.INT16_MIN) with v in Hcell;
  [exact Hcell|unfold Ints.INT16_MIN, u in *; lia].
Qed.

Module TemperatureFacts.
Import Temperature.

Lemma literals_binary32 :
Float.literal Float.binary32 12412 1 = offset32 /\
Float.literal Float.binary32 340 1 = slope32.
Proof. split; vm_compute; reflexivity. Qed.

Lemma literals_binary64 :
Float.literal Float.binary64 12412 1 = FloatOps.Prim2SF offset64 /\
Float.literal Float.binary64 340 1 = FloatOps.Prim2SF slope64.
Proof. split; vm_compute; reflexivity. Qed.

Lemma round_sign (prec emax : Z) (m : positive) (e : Z) :
binary_round prec emax true m e = SFopp (binary_round prec emax false m e).
Proof.
unfold binary_round. destruct (shl_align m e _) as [mz ez].
unfold binary_round_aux.
destruct (shr_fexp prec emax (Z.pos mz) ez loc_Exact) as [mrs' e'].
destruct (shr_fexp prec emax _ e' loc_Exact) as [mrs'' e''].
destruct (shr_m mrs''); try reflexivity.
destruct (e'' <=? emax - prec); reflexivity.
Qed.

Lemma prim_of_int_spec (raw : Z) :
- 2 ^ 62 < raw < 2 ^ 62 ->
FloatOps.Prim2SF (prim_of_int raw) = Float.of_Z Float.binary64 raw.
Proof.
intros Hraw. unfold prim_of_int, Float.of_Z.
cbn [Float.prec Float.emax Float.binary64].
assert (Hfit : forall n, 0 <= n < 2 ^ 62 ->
  Uint63Axioms.to_Z (Uint63.of_Z n) = n).
{ intros n Hn. rewrite Uint63.of_Z_spec. apply Z.mod_small.
  change Uint63Axioms.wB with (2 ^ 63). lia. }
destruct (Z.ltb_spec raw 0) as [Hneg|Hpos].
- rewrite FloatAxioms.opp_spec, FloatAxioms.of_uint63_spec, Hfit by lia.
  destruct raw as [|p|p]; try lia.
  cbn [Z.opp binary_normalize]. symmetry. apply round_sign.
- rewrite FloatAxioms.of_uint63_spec, Hfit by lia. reflexivity.
Qed.

Lemma in_binary64_spec (k c : PrimFloat.float) (raw : Z) :
- 2 ^ 62 < raw < 2 ^ 62 ->
in_format Float.binary64 (FloatOps.Prim2SF k) (FloatOps.Prim2SF c) raw
= in_binary64 k c raw.
Proof.
intros Hraw. unfold in_format, in_binary64.
rewrite FloatAxioms.div_spec, FloatAxioms.add_spec.
rewrite prim_of_int_spec by exact Hraw.
reflexivity.
Qed.

(** Either computation is within half a unit in the last place of the
    rational, on each of the 65536 raw values. *)
Lemma ok_binary32_holds : forall_int16 ok_binary32 = true.
Proof. vm_cast_no_check (eq_refl true). Qed.

Lemma ok_binary64_holds : forall_int16 ok_binary64 = true.
Proof. vm_cast_no_check (eq_refl true). Qed.

End TemperatureFacts.

Lemma scale_temperature_near {P : Platform} (raw : Z) :
double_is_ieee -> Ints.in_int16 raw ->
Temperature.near (scale_temperature raw) (raw + 12412) 340 Temperature.half_ulp
= true.
Proof.
intros Hdouble Hraw.
change (scale_temperature raw) with
  (Temperature.in_format double
     (Float.literal double 12412 1) (Float.literal double 340 1) raw).
destruct Hdouble as [-> | ->].
- destruct TemperatureFacts.literals_binary32 as [-> ->].
  exact (forall_int16_spec Temperature.ok_binary32
           TemperatureFacts.ok_binary32_holds raw Hraw).
- destruct TemperatureFacts.literals_binary64 as [-> ->].
  rewrite TemperatureFacts.in_binary64_spec.
  + exact (forall_int16_spec Temperature.ok_binary64
             TemperatureFacts.ok_binary64_holds raw Hraw).
  + destruct Hraw as [Hlo Hhi]. unfold Ints.INT16_MIN, Ints.INT16_MAX in *.
    change (2 ^ 62) with 4611686018427387904. lia.
Qed.

Lemma scale_temperature_points {P : Platform} :
double_is_ieee ->
scale_temperature 0 = S754_finite false 9569798 (-18) /\
scale_temperature (-12412) = Float.zero.
Proof.
intros Hdouble.
change (scale_temperature 0) with
  (Temperature.in_format double
     (Float.literal double 12412 1) (Float.literal double 340 1) 0).
change (scale_temperature (-12412)) with
  (Temperature.in_format double
     (Float.literal double 12412 1) (Float.literal double 340 1) (-12412)).
destruct Hdouble as [-> | ->]; split; vm_compute; reflexivity.
Qed.

(** C7: when the burst read delivers its 14 bytes, [read] returns and the
    temperature it stores is [(rawTemp + 12412.0) / 340.0] as the source
    computes it: a finite number within half a unit in the last place
    (2^-17) of the rational [(rawTemp + 12412) / 340], for either width of
    [double]; raw 0 gives 9569798 * 2^-18 (36.50588 to five places) and raw
    -12412 gives zero. *)
Theorem read_scales_temperature
{H : Header} {P : Platform} {T : Transport}
(w : World T) (addr : Z) (buffer : list Z) :
double_is_ieee ->
i2c_dev (drv w) = Some addr ->
answer_of addr MPU6050_ACCEL_OUT 14 w = Some buffer ->
exists w',
  read w = Ok tt w' /\
  Ints.in_int16 (rawTemp (drv w')) /\
  temperature (drv w') = scale_temperature (rawTemp (drv w')) /\
  Float.is_finite (temperature (drv w')) = true /\
  (Qabs (Float.to_Q (temperature (drv w')) - (rawTemp (drv w') + 12412 # 340))
   <= 1 # 131072)%Q /\
  (rawTemp (drv w') = 0 ->
   temperature (drv w') = S754_finite false 9569798 (-18)) /\
  (rawTemp (drv w') = -12412 -> temperature (drv w') = Float.zero).
Proof.
intros Hdouble Hdev Hburst.
pose proof (read_sample_run w addr Hdev) as Hrun.
rewrite Hburst in Hrun. cbv zeta in Hrun.
eexists. split; [exact Hrun|].
cbn [scaled drv with_scaled after_read rawTemp temperature sampled with_raw].
pose proof (int16_range
  (Z.lor (Z.shiftl (nth 6 buffer 0) 8) (nth 7 buffer 0))) as Hraw.
fold (be16 buffer 6) in Hraw.
pose proof (scale_temperature_near (be16 buffer 6) Hdouble Hraw) as Hnear.
unfold Temperature.near in Hnear. apply andb_prop in Hnear as [Hfin Hle].
apply Qle_bool_iff in Hle.
destruct (scale_temperature_points Hdouble) as [Hzero Hcold].
repeat split.
- apply Hraw.
- apply Hraw.
- exact Hfin.
- exact Hle.
- intros E. rewrite E. exact Hzero.
- intros E. rewrite E. exact Hcold.
Qed.

Lemma read_scales_temperature_witness :
exists w',
  read (H := datasheet) (P := arm) (attached (Chip.mpu6050 0 cold_sample))
  = Ok tt w' /\
  Ints.in_int16 (rawTemp (drv w')) /\
  temperature (drv w') = scale_temperature (P := arm) (rawTemp (drv w')) /\
  Float.is_finite (temperature (drv w')) = true /\
  (Qabs (Float.to_Q (temperature (drv w')) - (rawTemp (drv w') + 12412 # 340))
   <= 1 # 131072)%Q /\
  (rawTemp (drv w') = 0 ->
   temperature (drv w') = S754_finite false 9569798 (-18)) /\
  (rawTemp (drv w') = -12412 -> temperature (drv w') = Float.zero).
Proof.
apply (read_scales_temperature
         (H := datasheet) (P := arm)
         (attached (Chip.mpu6050 0 cold_sample)) 0x69 cold_sample).
- right. reflexivity.
- reflexivity.
- reflexivity.
Defined.

(** The same sample on the chip, run: at the power-on range of 2 g the three
    accelerations are 1, -1 and 4660/16384 g, the temperature is zero. *)
Example read_cold_sample :
exists w',
  read (H := datasheet) (P := arm) (attached (Chip.mpu6050 0 cold_sample))
  = Ok tt w' /\
  rawAccX (drv w') = 16384 /\ rawAccY (drv w') = -16384 /\
  rawAccZ (drv w') = 4660 /\ rawTemp (drv w') = -12412 /\
  (Float.to_Q (accX (drv w')) == 1)%Q /\
  (Float.to_Q (accY (drv w')) == -1)%Q /\
  (Float.to_Q (accZ (drv w')) == 4660 # 16384)%Q /\
  temperature (drv w') = Float.zero.
Proof.
destruct (outcome_ok
  (read (H := datasheet) (P := arm) (attached (Chip.mpu6050 0 cold_sample)))
  tt _ _ ltac:(vm_compute; reflexivity)) as (w' & Hrun & Hdrv & _).
exists w'. split; [exact Hrun|].
rewrite Hdrv. repeat split; vm_compute; reflexivity.
Qed.

(** ** Events, without and after a [read] *)




(** * Part IV: the rest of the driver *)

(** ** What [begin] does on the bus *)
Section BeginFacts.

Context {H : Header} {T : Transport}.

Lemma polls_drv addr k : forall w : World T,
drv (Nat.iter k (poll_again addr) w) = drv w.
Proof.
induction k as [|k IH]; intros w; [reflexivity|].
cbn [Nat.iter nat_rect]. unfold poll_again at 1.
cbn [after_delay after_read drv]. apply IH.
Qed.

(** The record of [k] turns of the loop. *)
Lemma polls_trace addr k (w : World T) :
exists answers,
  length answers = k /\
  trace (Nat.iter k (poll_again addr) w)
  = trace w ++ flat_map (failed_poll addr) answers /\
  (forall j, (j < k)%nat ->
     nth j answers None
     = answer_of addr MPU6050_PWR_MGMT_1 1 (Nat.iter j (poll_again addr) w)).
Proof.
induction k as [|k IH].
- exists []. cbn. rewrite app_nil_r. repeat split. intros j Hj. lia.
- destruct IH as (answers & Hlen & Htrace & Hnth).
  exists (answers ++
          [answer_of addr MPU6050_PWR_MGMT_1 1 (Nat.iter k (poll_again addr) w)]).
  split; [rewrite length_app; cbn; lia|]. split.
  + cbn [Nat.iter nat_rect]. unfold poll_again at 1.
    cbn [after_delay after_read trace].
    change (nat_rect (fun _ => World T) w (fun _ => poll_again addr) k)
      with (Nat.iter k (poll_again addr) w).
    rewrite Htrace, flat_map_app. cbn [flat_map failed_poll].
    rewrite app_nil_r, <- !app_assoc. reflexivity.
  + intros j Hj. destruct (Nat.eq_dec j k) as [->|Hne].
    * rewrite app_nth2 by lia. rewrite Hlen, Nat.sub_diag. reflexivity.
    * rewrite app_nth1 by lia. apply Hnth. lia.
Qed.

(** The two ways [begin] returns false. *)
Lemma begin_false_inv fuel i2c_address sensorID (w w' : World T) :
begin fuel i2c_address sensorID w = Ok false w' ->
let addr := Ints.uint8_t i2c_address in
(opened addr w = false /\ w' = after_begin addr w) \/
(opened addr w = true /\
 chip_id_read addr (after_begin addr w) <> MPU6050_DEVICE_ID /\
 w' = after_read addr MPU6050_WHO_AM_I 1 (after_begin addr w)).
Proof.
intros Hrun addr. rewrite begin_run in Hrun. fold addr in Hrun.
destruct (opened addr w); cbn [negb] in Hrun.
- right. rewrite (init_run fuel sensorID (after_begin addr w) addr eq_refl) in Hrun.
  destruct (Z.eqb_spec (chip_id_read addr (after_begin addr w)) MPU6050_DEVICE_ID)
    as [Hid|Hid]; cbn [negb] in Hrun.
  + destruct (await_reset _ _ _); discriminate.
  + inversion Hrun. auto.
- left. inversion Hrun. auto.
Qed.

(** The one way it returns true. *)
Lemma begin_true_inv fuel i2c_address sensorID (w w' : World T) :
begin fuel i2c_address sensorID w = Ok true w' ->
let addr := Ints.uint8_t i2c_address in
let w2 := reset_written addr sensorID (after_begin addr w) in
opened addr w = true /\
chip_id_read addr (after_begin addr w) = MPU6050_DEVICE_ID /\
exists k, (k < fuel)%nat /\
  (forall j, (j < k)%nat -> ~ reset_done addr (Nat.iter j (poll_again addr) w2)) /\
  reset_done addr (Nat.iter k (poll_again addr) w2) /\
  w' = configured addr
         (after_read addr MPU6050_PWR_MGMT_1 1 (Nat.iter k (poll_again addr) w2)).
Proof.
intros Hrun addr w2. rewrite begin_run in Hrun. fold addr in Hrun.
destruct (opened addr w); cbn [negb] in Hrun; [|discriminate].
split; [reflexivity|].
rewrite (init_run fuel sensorID (after_begin addr w) addr eq_refl) in Hrun.
destruct (Z.eqb_spec (chip_id_read addr (after_begin addr w)) MPU6050_DEVICE_ID)
  as [Hid|Hid]; cbn [negb] in Hrun; [|discriminate].
split; [exact Hid|]. fold w2 in Hrun.
destruct (await_reset fuel (power_mgmt_1_of addr) w2) as [u w3| |] eqn:Hloop;
  try discriminate.
destruct (await_reset_inv addr fuel w2 u w3 Hloop) as (k & Hk & Hnot & Hdone & Hw3).
exists k. repeat split; try assumption.
inversion Hrun. subst w3. reflexivity.
Qed.

(** The record of the bus from the opening of the transport to the write of
    the reset bit, and that of the configuration. *)
Lemma reset_written_trace addr sensorID (w : World T) :
opened addr w = true ->
exists reset_ok,
  trace (reset_written addr sensorID (after_begin addr w))
  = trace w ++
    [EvBegin addr true;
     EvRead addr [Ints.uint8_t MPU6050_WHO_AM_I] 1
       (answer_of addr MPU6050_WHO_AM_I 1 (after_begin addr w));
     EvWrite addr [Ints.uint8_t MPU6050_PWR_MGMT_1; 0x80] reset_ok].
Proof.
intros Hopen. eexists.
unfold reset_written, after_write, identified, after_read, answer_of, after_begin.
cbn [trace bus]. unfold opened in Hopen. rewrite Hopen.
repeat rewrite <- app_assoc. reflexivity.
Qed.

Lemma configured_trace addr (w : World T) :
exists ok1 ok2 ok3 ok4 ok5,
  trace (configured addr (after_read addr MPU6050_PWR_MGMT_1 1 w))
  = trace w ++
    [EvRead addr [Ints.uint8_t MPU6050_PWR_MGMT_1] 1
       (answer_of addr MPU6050_PWR_MGMT_1 1 w)] ++
    configuration addr ok1 ok2 ok3 ok4 ok5.
Proof.
do 5 eexists.
unfold configured, after_delay, after_write, after_read, answer_of, configuration.
cbn [trace bus]. repeat rewrite <- app_assoc. reflexivity.
Qed.

Lemma delay_total_app (tr1 tr2 : list BusEvent) :
delay_total (tr1 ++ tr2) = delay_total tr1 + delay_total tr2.
Proof.
induction tr1 as [|e tr1 IH]; [reflexivity|].
destruct e; cbn [app delay_total]; rewrite IH; lia.
Qed.

Lemma delay_total_polls addr (answers : list (option (list Z))) :
delay_total (flat_map (failed_poll addr) answers) = 10 * Z.of_nat (length answers).
Proof.
induction answers as [|a answers IH]; [reflexivity|].
cbn [flat_map failed_poll app delay_total length]. rewrite IH. lia.
Qed.

End BeginFacts.

(** X1: a [begin] that returns false has written no register and waited for
    nothing: it has opened the transport and, if that succeeded, read the
    identification register once and found another value than the device
    identifier.  The driver keeps the new device handle; its identifiers and
    its sample are those it had. *)
Theorem begin_failure_writes_nothing
{H : Header} {T : Transport}
(fuel : nat) (i2c_address sensorID : Z) (w w' : World T) :
begin fuel i2c_address sensorID w = Ok false w' ->
let addr := Ints.uint8_t i2c_address in
drv w' = with_i2c_dev (Some addr) (drv w) /\
(trace w' = trace w ++ [EvBegin addr false] \/
 exists answer,
   BusIO.value_of answer <> MPU6050_DEVICE_ID /\
   trace w' = trace w ++
     [EvBegin addr true;
      EvRead addr [Ints.uint8_t MPU6050_WHO_AM_I] 1 answer]).
Proof.
intros Hrun addr.
pose proof (begin_false_inv fuel i2c_address sensorID w w' Hrun) as Hinv.
cbv zeta in Hinv. fold addr in Hinv.
destruct Hinv as [[Hclosed ->] | (Hopen & Hid & ->)].
- split; [reflexivity|]. left.
  unfold after_begin. cbn [trace]. unfold opened in Hclosed.
  rewrite Hclosed. reflexivity.
- split; [reflexivity|]. right.
  exists (answer_of addr MPU6050_WHO_AM_I 1 (after_begin addr w)).
  split; [exact Hid|].
  unfold after_read, after_begin. cbn [trace bus]. unfold opened in Hopen.
  rewrite Hopen, <- app_assoc. reflexivity.
Qed.

Lemma begin_failure_writes_nothing_witness :
drv (after_begin 0x69 (boot Chip.absent))
= with_i2c_dev (Some 0x69) (drv (boot Chip.absent)) /\
(trace (after_begin 0x69 (boot Chip.absent))
 = trace (boot Chip.absent) ++ [EvBegin 0x69 false] \/
 exists answer,
   BusIO.value_of answer <> 0x68 /\
   trace (after_begin 0x69 (boot Chip.absent))
   = trace (boot Chip.absent) ++
     [EvBegin 0x69 true; EvRead 0x69 [0x75] 1 answer]).
Proof.
apply (begin_failure_writes_nothing (H := datasheet) 5 0x69 10
         (boot Chip.absent) (after_begin 0x69 (boot Chip.absent))).
reflexivity.
Defined.

(** X2: a [begin] that returns true has put on the bus, in this order: the
    opening of the transport, one read of the identification register that
    gave the device identifier, the write of the reset bit, a number of
    polls of the power-management register that did not read 0x40, each
    followed by a delay of 10 ms, one poll that read 0x40, and the five
    configuration writes (sample-rate divider 0, filter 0, gyroscope range
    0x08, accelerometer range 0, clock 0x01) followed by a delay of 100 ms.
    It has done nothing else, whether the writes succeeded or not, and the
    time it has waited is 10 ms for each failed poll and 100 ms. *)
Theorem begin_transcript
{H : Header} {T : Transport}
(fuel : nat) (i2c_address sensorID : Z) (w w' : World T) :
begin fuel i2c_address sensorID w = Ok true w' ->
let addr := Ints.uint8_t i2c_address in
exists (id : option (list Z)) (reset_ok : bool)
       (answers : list (option (list Z))) (last : option (list Z))
       (ok1 ok2 ok3 ok4 ok5 : bool),
  BusIO.value_of id = MPU6050_DEVICE_ID /\
  (length answers < fuel)%nat /\
  Forall (fun answer => BusIO.value_of answer <> 0x40) answers /\
  BusIO.value_of last = 0x40 /\
  trace w' = trace w ++
    [EvBegin addr true;
     EvRead addr [Ints.uint8_t MPU6050_WHO_AM_I] 1 id;
     EvWrite addr [Ints.uint8_t MPU6050_PWR_MGMT_1; 0x80] reset_ok] ++
    flat_map (failed_poll addr) answers ++
    [EvRead addr [Ints.uint8_t MPU6050_PWR_MGMT_1] 1 last] ++
    configuration addr ok1 ok2 ok3 ok4 ok5 /\
  delay_total (trace w')
  = delay_total (trace w) + 10 * Z.of_nat (length answers) + 100.
Proof.
intros Hrun addr.
pose proof (begin_true_inv fuel i2c_address sensorID w w' Hrun) as Hinv.
cbv zeta in Hinv. fold addr in Hinv.
destruct Hinv as (Hopen & Hid & k & Hk & Hnot & Hdone & Hw').
destruct (reset_written_trace addr sensorID w Hopen) as (reset_ok & Hreset).
set (w2 := reset_written addr sensorID (after_begin addr w)) in *.
destruct (polls_trace addr k w2) as (answers & Hlen & Hpolls & Hnth).
set (wk := Nat.iter k (poll_again addr) w2) in *.
destruct (configured_trace addr wk) as (ok1 & ok2 & ok3 & ok4 & ok5 & Hconf).
exists (answer_of addr MPU6050_WHO_AM_I 1 (after_begin addr w)), reset_ok,
       answers, (answer_of addr MPU6050_PWR_MGMT_1 1 wk),
       ok1, ok2, ok3, ok4, ok5.
assert (Htr : trace w' = trace w ++
    [EvBegin addr true;
     EvRead addr [Ints.uint8_t MPU6050_WHO_AM_I] 1
       (answer_of addr MPU6050_WHO_AM_I 1 (after_begin addr w));
     EvWrite addr [Ints.uint8_t MPU6050_PWR_MGMT_1; 0x80] reset_ok] ++
    flat_map (failed_poll addr) answers ++
    [EvRead addr [Ints.uint8_t MPU6050_PWR_MGMT_1] 1
       (answer_of addr MPU6050_PWR_MGMT_1 1 wk)] ++
    configuration addr ok1 ok2 ok3 ok4 ok5).
{ rewrite Hw', Hconf, Hpolls, Hreset. repeat rewrite <- app_assoc. reflexivity. }
split; [exact Hid|]. split; [lia|]. split.
{ apply Forall_forall. intros answer Hin.
  destruct (In_nth answers answer None Hin) as (j & Hj & <-).
  rewrite Hnth by lia. apply Hnot. lia. }
split; [exact Hdone|]. split; [exact Htr|].
rewrite Htr, !delay_total_app, delay_total_polls. cbn [delay_total configuration].
lia.
Qed.

Lemma begin_transcript_witness :
exists w',
  begin (H := datasheet) 3 0x69 10 (boot (Chip.mpu6050 1 [])) = Ok true w' /\
  exists (id : option (list Z)) (reset_ok : bool)
         (answers : list (option (list Z))) (last : option (list Z))
         (ok1 ok2 ok3 ok4 ok5 : bool),
    BusIO.value_of id = 0x68 /\
    (length answers < 3)%nat /\
    Forall (fun answer => BusIO.value_of answer <> 0x40) answers /\
    BusIO.value_of last = 0x40 /\
    trace w' = trace (boot (Chip.mpu6050 1 [])) ++
      [EvBegin 0x69 true;
       EvRead 0x69 [0x75] 1 id;
       EvWrite 0x69 [0x6B; 0x80] reset_ok] ++
      flat_map (failed_poll (H := datasheet) 0x69) answers ++
      [EvRead 0x69 [0x6B] 1 last] ++
      configuration (H := datasheet) 0x69 ok1 ok2 ok3 ok4 ok5 /\
    delay_total (trace w')
    = delay_total (trace (boot (Chip.mpu6050 1 [])))
      + 10 * Z.of_nat (length answers) + 100.
Proof.
destruct (outcome_ok
  (begin (H := datasheet) 3 0x69 10 (boot (Chip.mpu6050 1 []))) true _ _
  ltac:(vm_compute; reflexivity)) as (w' & Hrun & _ & _).
exists w'. split; [exact Hrun|].
exact (begin_transcript (H := datasheet) 3 0x69 10
         (boot (Chip.mpu6050 1 [])) w' Hrun).
Defined.

(** X3: [begin] takes no sample.  Whether it returns true or false, the raw
    and the scaled members of the driver are those it had, so the events
    [getEvent] fills afterwards carry the measurements they carried before;
    the device handle is the new one in both cases. *)
Theorem begin_keeps_sample
{H : Header} {P : Platform} {T : Transport}
(fuel : nat) (i2c_address sensorID : Z) (ok : bool) (w w' : World T) :
begin fuel i2c_address sensorID w = Ok ok w' ->
i2c_dev (drv w') = Some (Ints.uint8_t i2c_address) /\
raw_sample (drv w') = raw_sample (drv w) /\
scaled_sample (drv w') = scaled_sample (drv w) /\
payload (accel_event (drv w')) = payload (accel_event (drv w)) /\
payload (gyro_event (drv w')) = payload (gyro_event (drv w)) /\
payload (temp_event (drv w')) = payload (temp_event (drv w)).
Proof.
intros Hrun.
assert (Hdrv : exists a g t,
  drv w' = with_sensorids a g t
             (with_i2c_dev (Some (Ints.uint8_t i2c_address)) (drv w))).
{ destruct ok.
  - pose proof (begin_true_inv fuel i2c_address sensorID w w' Hrun) as Hinv.
    cbv zeta in Hinv. destruct Hinv as (_ & _ & k & _ & _ & _ & ->).
    do 3 eexists.
    cbn [configured after_delay after_write after_read drv].
    rewrite polls_drv. reflexivity.
  - pose proof (begin_false_inv fuel i2c_address sensorID w w' Hrun) as Hinv.
    cbv zeta in Hinv. destruct Hinv as [[_ ->] | (_ & _ & ->)].
    + exists (_sensorid_accel (drv w)), (_sensorid_gyro (drv w)),
        (_sensorid_temp (drv w)).
      cbn [after_begin drv]. destruct (drv w); reflexivity.
    + exists (_sensorid_accel (drv w)), (_sensorid_gyro (drv w)),
        (_sensorid_temp (drv w)).
      cbn [after_read after_begin drv]. destruct (drv w); reflexivity. }
destruct Hdrv as (a & g & t & ->).
repeat split; reflexivity.
Qed.

Lemma begin_keeps_sample_witness :
i2c_dev (drv (after_begin 0x69 (boot Chip.absent))) = Some (Ints.uint8_t 0x69) /\
raw_sample (drv (after_begin 0x69 (boot Chip.absent)))
= raw_sample (drv (boot Chip.absent)) /\
scaled_sample (drv (after_begin 0x69 (boot Chip.absent)))
= scaled_sample (drv (boot Chip.absent)) /\
payload (accel_event (P := avr) (drv (after_begin 0x69 (boot Chip.absent))))
= payload (accel_event (P := avr) (drv (boot Chip.absent))) /\
payload (gyro_event (P := avr) (drv (after_begin 0x69 (boot Chip.absent))))
= payload (gyro_event (P := avr) (drv (boot Chip.absent))) /\
payload (temp_event (P := avr) (drv (after_begin 0x69 (boot Chip.absent))))
= payload (temp_event (P := avr) (drv (boot Chip.absent))).
Proof.
apply (begin_keeps_sample (H := datasheet) (P := avr) 5 0x69 10 false
         (boot Chip.absent) (after_begin 0x69 (boot Chip.absent))).
reflexivity.
Defined.

(** ** What [read] takes from the burst *)

(** Two bytes, the most significant shifted by 8 and or-ed with the other,
    stored in an [int16_t]. *)
Lemma be16_decodes (buffer : list Z) (i : nat) :
is_byte (nth i buffer 0) -> is_byte (nth (S i) buffer 0) ->
be16 buffer i = signed16 (big_endian (nth i buffer 0) (nth (S i) buffer 0)).
Proof.
unfold is_byte, be16, signed16, big_endian.
generalize (nth i buffer 0) (nth (S i) buffer 0). intros hi lo Hhi Hlo.
assert (Hland : Z.land (Z.shiftl hi 8) lo = 0).
{ apply Z.bits_inj'. intros n Hn. rewrite Z.land_spec, Z.bits_0.
  destruct (Z.ltb_spec n 8) as [Hlt|Hge].
  - rewrite Z.shiftl_spec_low by lia. reflexivity.
  - rewrite (Z.bits_above_log2 lo n); [apply andb_false_r|lia|].
    destruct (Z.eq_dec lo 0) as [->|Hne]; [cbn; lia|].
    apply Z.log2_lt_pow2; [lia|].
    apply Z.lt_le_trans with (2 ^ 8); [lia|].
    apply Z.pow_le_mono_r; lia. }
rewrite <- Z.lxor_lor, <- Z.add_nocarry_lxor by exact Hland.
rewrite Z.shiftl_mul_pow2 by lia. change (2 ^ 8) with 256.
unfold Ints.int16_t, Ints.wrap_signed.
change (2 ^ (16 - 1)) with 32768. change (2 ^ 16) with 65536.
replace (hi * 256 + lo) with (256 * hi + lo) by lia.
destruct (Z.ltb_spec (256 * hi + lo) 32768) as [Hpos|Hneg].
- rewrite Z.mod_small by lia. lia.
- replace (256 * hi + lo + 32768)
    with (256 * hi + lo - 32768 + 1 * 65536) by lia.
  rewrite Z.mod_add by lia. rewrite Z.mod_small by lia. lia.
Qed.

(** The bytes of a 16-bit number are bytes, and give the number back. *)
Lemma int16_bytes_range (v : Z) :
is_byte (nth 0 (int16_bytes v) 0) /\ is_byte (nth 1 (int16_bytes v) 0).
Proof.
unfold is_byte, int16_bytes. cbn [nth].
pose proof (Z.mod_pos_bound v 65536 ltac:(lia)) as Hu.
pose proof (Z.mod_pos_bound v 256 ltac:(lia)) as Hl.
split; [|lia].
split; [apply Z.div_pos; lia|apply Z.div_lt_upper_bound; lia].
Qed.

Lemma int16_bytes_value (v : Z) :
Ints.in_int16 v ->
signed16 (big_endian (nth 0 (int16_bytes v) 0) (nth 1 (int16_bytes v) 0)) = v.
Proof.
intros [Hlo Hhi]. unfold Ints.INT16_MIN, Ints.INT16_MAX in *.
unfold signed16, big_endian, int16_bytes. cbn [nth].
pose proof (Z.mod_pos_bound v 65536 ltac:(lia)) as Hu.
assert (Hlow : v mod 256 = (v mod 65536) mod 256).
{ symmetry. apply Z.mod_mod_divide. exists 256. reflexivity. }
rewrite Hlow, <- Z.div_mod by lia.
destruct (Z.ltb_spec v 0) as [Hneg|Hpos].
- replace (v mod 65536) with (v + 65536).
  + destruct (Z.ltb_spec (v + 65536) 32768); lia.
  + apply (Z.mod_unique v 65536 (-1)); lia.
- rewrite Z.mod_small by lia.
  destruct (Z.ltb_spec v 32768); lia.
Qed.

Section ReadFacts.

Context {H : Header} {P : Platform} {T : Transport}.

(** What a transaction of [len] bytes delivers is [len] bytes. *)
Lemma answer_bytes addr reg len (w : World T) buffer :
answer_of addr reg len w = Some buffer ->
length buffer = len /\ Forall is_byte buffer.
Proof.
unfold answer_of, BusIO.received.
destruct (fst (hw_write_then_read T addr [Ints.uint8_t reg] len (bus w)))
  as [bytes|]; [|discriminate].
destruct (Nat.eqb_spec (length bytes) len) as [Hlen|Hlen]; [|discriminate].
intros Heq. inversion Heq. subst buffer. split.
- rewrite length_map. exact Hlen.
- apply Forall_forall. intros b Hin. apply in_map_iff in Hin as (b0 & <- & _).
  unfold is_byte, Ints.uint8_t, Ints.wrap_unsigned.
  change (2 ^ 8) with 256. apply Z.mod_pos_bound. lia.
Qed.

Lemma nth_is_byte (buffer : list Z) (i : nat) :
Forall is_byte buffer -> is_byte (nth i buffer 0).
Proof.
intros Hall. destruct (Nat.lt_ge_cases i (length buffer)) as [Hlt|Hge].
- rewrite Forall_forall in Hall. apply Hall. apply nth_In. exact Hlt.
- rewrite nth_overflow by exact Hge. unfold is_byte. lia.
Qed.

(** The run of [read] when the burst is delivered, member by member. *)
Lemma read_members (w : World T) addr buffer :
i2c_dev (drv w) = Some addr ->
answer_of addr MPU6050_ACCEL_OUT 14 w = Some buffer ->
exists w',
  read w = Ok tt w' /\
  i2c_dev (drv w') = Some addr /\
  _sensorid_accel (drv w') = _sensorid_accel (drv w) /\
  _sensorid_gyro (drv w') = _sensorid_gyro (drv w) /\
  _sensorid_temp (drv w') = _sensorid_temp (drv w) /\
  raw_sample (drv w')
  = [be16 buffer 0; be16 buffer 2; be16 buffer 4; be16 buffer 6;
     be16 buffer 8; be16 buffer 10; be16 buffer 12] /\
  (let range :=
     range_read_back addr
       (sampled buffer (after_read addr MPU6050_ACCEL_OUT 14 w)) in
   scaled_sample (drv w')
   = [scale_accel (be16 buffer 0) (accel_scale range);
      scale_accel (be16 buffer 2) (accel_scale range);
      scale_accel (be16 buffer 4) (accel_scale range);
      scale_temperature (be16 buffer 6);
      scale_gyro (be16 buffer 8); scale_gyro (be16 buffer 10);
      scale_gyro (be16 buffer 12)]) /\
  bus w'
  = snd (hw_write_then_read T addr [Ints.uint8_t MPU6050_ACCEL_CONFIG] 1
           (snd (hw_write_then_read T addr [Ints.uint8_t MPU6050_ACCEL_OUT] 14
                   (bus w)))) /\
  trace w' = trace w ++
    [EvRead addr [Ints.uint8_t MPU6050_ACCEL_OUT] 14 (Some buffer);
     EvRead addr [Ints.uint8_t MPU6050_ACCEL_CONFIG] 1
       (answer_of addr MPU6050_ACCEL_CONFIG 1
          (sampled buffer (after_read addr MPU6050_ACCEL_OUT 14 w)))].
Proof.
intros Hdev Hburst.
pose proof (read_sample_run w addr Hdev) as Hrun.
rewrite Hburst in Hrun. cbv zeta in Hrun.
eexists. split; [exact Hrun|].
cbn [scaled sampled after_read drv bus trace with_scaled with_raw
     i2c_dev _sensorid_accel _sensorid_gyro _sensorid_temp
     raw_sample scaled_sample
     rawAccX rawAccY rawAccZ rawTemp rawGyroX rawGyroY rawGyroZ
     accX accY accZ temperature gyroX gyroY gyroZ].
repeat split; try reflexivity; try assumption.
fold (answer_of addr MPU6050_ACCEL_OUT 14 w). rewrite Hburst.
rewrite <- app_assoc. reflexivity.
Qed.

End ReadFacts.

(** X4: when the burst read delivers its 14 bytes, each raw member is the
    16-bit two's complement number whose bytes, the most significant first,
    are two consecutive bytes of the burst: the accelerations at offsets 0,
    2 and 4, the temperature at 6, the rates at 8, 10 and 12.  A high byte of
    128 or more gives a negative number. *)
Theorem read_decodes_big_endian
{H : Header} {P : Platform} {T : Transport}
(w : World T) (addr : Z) (buffer : list Z) :
i2c_dev (drv w) = Some addr ->
answer_of addr MPU6050_ACCEL_OUT 14 w = Some buffer ->
exists w',
  read w = Ok tt w' /\
  length buffer = 14%nat /\
  Forall is_byte buffer /\
  raw_sample (drv w')
  = map (fun i => signed16 (big_endian (nth i buffer 0) (nth (S i) buffer 0)))
      [0; 2; 4; 6; 8; 10; 12]%nat /\
  Forall Ints.in_int16 (raw_sample (drv w')).
Proof.
intros Hdev Hburst.
destruct (read_members w addr buffer Hdev Hburst)
  as (w' & Hrun & _ & _ & _ & _ & Hraw & _).
destruct (answer_bytes _ _ _ _ _ Hburst) as [Hlen Hbytes].
exists w'. split; [exact Hrun|]. split; [exact Hlen|]. split; [exact Hbytes|].
split.
- rewrite Hraw. cbn [map].
  rewrite !be16_decodes by (apply nth_is_byte; exact Hbytes). reflexivity.
- rewrite Hraw. repeat constructor; apply int16_range.
Qed.

Lemma read_decodes_big_endian_witness :
exists w',
  read (H := datasheet) (P := avr) (attached (Chip.mpu6050 0 cold_sample))
  = Ok tt w' /\
  length cold_sample = 14%nat /\
  Forall is_byte cold_sample /\
  raw_sample (drv w')
  = map (fun i => signed16 (big_endian (nth i cold_sample 0)
                              (nth (S i) cold_sample 0)))
      [0; 2; 4; 6; 8; 10; 12]%nat /\
  Forall Ints.in_int16 (raw_sample (drv w')).
Proof.
apply (read_decodes_big_endian (H := datasheet) (P := avr)
         (attached (Chip.mpu6050 0 cold_sample)) 0x69 cold_sample).
- reflexivity.
- reflexivity.
Defined.

(** X5: the decoding loses nothing.  When the burst is the seven 16-bit
    numbers of a sample, each as its two bytes with the most significant
    first, [read] stores these seven numbers in the raw members. *)
Theorem read_recovers_sample
{H : Header} {P : Platform} {T : Transport}
(w : World T) (addr : Z) (sample : list Z) :
i2c_dev (drv w) = Some addr ->
length sample = 7%nat ->
Forall Ints.in_int16 sample ->
answer_of addr MPU6050_ACCEL_OUT 14 w = Some (flat_map int16_bytes sample) ->
exists w', read w = Ok tt w' /\ raw_sample (drv w') = sample.
Proof.
intros Hdev Hlen Hsample Hburst.
destruct (read_members w addr _ Hdev Hburst)
  as (w' & Hrun & _ & _ & _ & _ & Hraw & _).
exists w'. split; [exact Hrun|]. rewrite Hraw. clear Hraw Hrun Hburst.
destruct sample as [|v0 [|v1 [|v2 [|v3 [|v4 [|v5 [|v6 [|]]]]]]]];
  try discriminate Hlen.
repeat match goal with
       | Hf : Forall _ (_ :: _) |- _ => inversion Hf; subst; clear Hf
       end.
assert (Hone : forall v pre post, Ints.in_int16 v ->
  be16 (pre ++ int16_bytes v ++ post) (length pre) = v).
{ intros v pre post Hv.
  assert (Hhi : nth (length pre) (pre ++ int16_bytes v ++ post) 0
                = nth 0 (int16_bytes v) 0).
  { rewrite app_nth2 by lia. rewrite Nat.sub_diag. reflexivity. }
  assert (Hlo : nth (S (length pre)) (pre ++ int16_bytes v ++ post) 0
                = nth 1 (int16_bytes v) 0).
  { rewrite app_nth2 by lia.
    replace (S (length pre) - length pre)%nat with 1%nat by lia. reflexivity. }
  rewrite be16_decodes; rewrite ?Hhi, ?Hlo;
    try apply int16_bytes_range.
  apply int16_bytes_value. exact Hv. }
cbn [flat_map]. rewrite app_nil_r.
set (b0 := int16_bytes v0). set (b1 := int16_bytes v1).
set (b2 := int16_bytes v2). set (b3 := int16_bytes v3).
set (b4 := int16_bytes v4). set (b5 := int16_bytes v5).
set (b6 := int16_bytes v6).
repeat f_equal.
- exact (Hone v0 [] (b1 ++ b2 ++ b3 ++ b4 ++ b5 ++ b6) ltac:(assumption)).
- pose proof (Hone v1 b0 (b2 ++ b3 ++ b4 ++ b5 ++ b6) ltac:(assumption)) as E.
  exact E.
- pose proof (Hone v2 (b0 ++ b1) (b3 ++ b4 ++ b5 ++ b6) ltac:(assumption)) as E.
  rewrite <- app_assoc in E. exact E.
- pose proof (Hone v3 (b0 ++ b1 ++ b2) (b4 ++ b5 ++ b6) ltac:(assumption)) as E.
  rewrite <- !app_assoc in E. exact E.
- pose proof (Hone v4 (b0 ++ b1 ++ b2 ++ b3) (b5 ++ b6) ltac:(assumption)) as E.
  rewrite <- !app_assoc in E. exact E.
- pose proof (Hone v5 (b0 ++ b1 ++ b2 ++ b3 ++ b4) b6 ltac:(assumption)) as E.
  rewrite <- !app_assoc in E. exact E.
- pose proof (Hone v6 (b0 ++ b1 ++ b2 ++ b3 ++ b4 ++ b5) [] ltac:(assumption)) as E.
  rewrite <- !app_assoc, app_nil_r in E. exact E.
Qed.

Lemma read_recovers_sample_witness :
exists w',
  read (H := datasheet) (P := avr) (attached (Chip.mpu6050 0 cold_sample))
  = Ok tt w' /\
  raw_sample (drv w') = [16384; -16384; 4660; -12412; 1; -1; -32768].
Proof.
apply (read_recovers_sample (H := datasheet) (P := avr)
         (attached (Chip.mpu6050 0 cold_sample)) 0x69
         [16384; -16384; 4660; -12412; 1; -1; -32768]).
- reflexivity.
- reflexivity.
- repeat constructor; vm_compute; discriminate.
- reflexivity.
Defined.

(** X6: a [read] whose burst is delivered makes two transactions and no
    other: the read of 14 bytes at the first output register, then the read
    of the accelerometer configuration.  It writes nothing to the chip and
    waits for nothing, and it leaves the device handle and the three
    identifiers of the driver as they were. *)
Theorem read_only_reads
{H : Header} {P : Platform} {T : Transport}
(w : World T) (addr : Z) (buffer : list Z) :
i2c_dev (drv w) = Some addr ->
answer_of addr MPU6050_ACCEL_OUT 14 w = Some buffer ->
exists w' config,
  read w = Ok tt w' /\
  trace w' = trace w ++
    [EvRead addr [Ints.uint8_t MPU6050_ACCEL_OUT] 14 (Some buffer);
     EvRead addr [Ints.uint8_t MPU6050_ACCEL_CONFIG] 1 config] /\
  delay_total (trace w') = delay_total (trace w) /\
  i2c_dev (drv w') = i2c_dev (drv w) /\
  _sensorid_accel (drv w') = _sensorid_accel (drv w) /\
  _sensorid_gyro (drv w') = _sensorid_gyro (drv w) /\
  _sensorid_temp (drv w') = _sensorid_temp (drv w).
Proof.
intros Hdev Hburst.
destruct (read_members w addr buffer Hdev Hburst)
  as (w' & Hrun & Hdev' & Ha & Hg & Ht & _ & _ & _ & Htrace).
exists w'. eexists. split; [exact Hrun|]. split; [exact Htrace|].
split; [rewrite Htrace, delay_total_app; cbn [delay_total]; lia|].
rewrite Hdev. repeat split; assumption.
Qed.

Lemma read_only_reads_witness :
exists w' config,
  read (H := datasheet) (P := arm) (attached (Chip.mpu6050 0 cold_sample))
  = Ok tt w' /\
  trace w' = trace (attached (Chip.mpu6050 0 cold_sample)) ++
    [EvRead 0x69 [0x3B] 14 (Some cold_sample);
     EvRead 0x69 [0x1C] 1 config] /\
  delay_total (trace w')
  = delay_total (trace (attached (Chip.mpu6050 0 cold_sample))) /\
  i2c_dev (drv w') = i2c_dev (drv (attached (Chip.mpu6050 0 cold_sample))) /\
  _sensorid_accel (drv w')
  = _sensorid_accel (drv (attached (Chip.mpu6050 0 cold_sample))) /\
  _sensorid_gyro (drv w')
  = _sensorid_gyro (drv (attached (Chip.mpu6050 0 cold_sample))) /\
  _sensorid_temp (drv w')
  = _sensorid_temp (drv (attached (Chip.mpu6050 0 cold_sample))).
Proof.
apply (read_only_reads (H := datasheet) (P := arm)
         (attached (Chip.mpu6050 0 cold_sample)) 0x69 cold_sample).
- reflexivity.
- reflexivity.
Defined.

(** X7: a sample owes nothing to the sample before it.  Two drivers bound to
    the same device, whatever their members hold, that [read] in the same
    state of the bus store the same raw and the same scaled members and
    leave the bus in the same state. *)
Theorem read_forgets_previous_sample
{H : Header} {P : Platform} {T : Transport}
(w1 w2 w1' : World T) (addr : Z) :
i2c_dev (drv w1) = Some addr ->
i2c_dev (drv w2) = Some addr ->
bus w1 = bus w2 ->
read w1 = Ok tt w1' ->
exists w2',
  read w2 = Ok tt w2' /\
  raw_sample (drv w2') = raw_sample (drv w1') /\
  scaled_sample (drv w2') = scaled_sample (drv w1') /\
  bus w2' = bus w1'.
Proof.
intros Hdev1 Hdev2 Hbus Hrun1.
destruct (answer_of addr MPU6050_ACCEL_OUT 14 w1) as [buffer|] eqn:Hburst1.
- assert (Hburst2 : answer_of addr MPU6050_ACCEL_OUT 14 w2 = Some buffer).
  { unfold answer_of in *. rewrite <- Hbus. exact Hburst1. }
  destruct (read_members w1 addr buffer Hdev1 Hburst1)
    as (u1 & Hu1 & _ & _ & _ & _ & Hraw1 & Hscaled1 & Hbus1 & _).
  destruct (read_members w2 addr buffer Hdev2 Hburst2)
    as (u2 & Hu2 & _ & _ & _ & _ & Hraw2 & Hscaled2 & Hbus2 & _).
  rewrite Hrun1 in Hu1. inversion Hu1. subst u1.
  exists u2. split; [exact Hu2|].
  split; [rewrite Hraw1, Hraw2; reflexivity|].
  split.
  + cbv zeta in Hscaled1, Hscaled2. rewrite Hscaled1, Hscaled2.
    unfold range_read_back, answer_of, sampled, after_read. cbn [bus].
    rewrite Hbus. reflexivity.
  + rewrite Hbus1, Hbus2, Hbus. reflexivity.
- rewrite (read_sample_run w1 addr Hdev1), Hburst1 in Hrun1. discriminate.
Qed.

Lemma read_forgets_previous_sample_witness :
exists w2',
  read (H := datasheet) (P := avr)
    (Build_World (Chip.transport (Chip.mpu6050 0 cold_sample))
       (with_raw 1 2 3 4 5 6 7 (with_i2c_dev (Some 0x69) zero_initialized))
       Chip.power_on [EvDelay 5])
  = Ok tt w2' /\
  raw_sample (drv w2') = [16384; -16384; 4660; -12412; 1; -1; -32768] /\
  scaled_sample (drv w2')
  = [S754_finite false 8388608 (-23); S754_finite true 8388608 (-23);
     S754_finite false 9543680 (-25); S754_zero false;
     S754_finite false 16393005 (-30); S754_finite true 16393005 (-30);
     S754_finite true 16393005 (-15)] /\
  bus w2' = Chip.power_on.
Proof.
destruct (outcome_ok
  (read (H := datasheet) (P := avr) (attached (Chip.mpu6050 0 cold_sample)))
  tt _ _ ltac:(vm_compute; reflexivity)) as (w1' & Hrun & Hdrv & _).
destruct (read_forgets_previous_sample (H := datasheet) (P := avr)
  (attached (Chip.mpu6050 0 cold_sample))
  (Build_World (Chip.transport (Chip.mpu6050 0 cold_sample))
     (with_raw 1 2 3 4 5 6 7 (with_i2c_dev (Some 0x69) zero_initialized))
     Chip.power_on [EvDelay 5])
  w1' 0x69 eq_refl eq_refl eq_refl Hrun) as (w2' & Hrun2 & Hraw & Hscaled & Hbus).
exists w2'. split; [exact Hrun2|].
rewrite Hraw, Hscaled, Hdrv.
split; [reflexivity|]. split; [reflexivity|].
rewrite Hbus.
destruct (read_members (H := datasheet) (P := avr)
  (attached (Chip.mpu6050 0 cold_sample)) 0x69 cold_sample eq_refl eq_refl)
  as (u & Hu & _ & _ & _ & _ & _ & _ & Hb & _).
rewrite Hrun in Hu. inversion Hu. subst u. rewrite Hb. reflexivity.
Defined.

(** ** The accelerations, whatever the header says *)

(** A 16-bit integer divided by 1 in single precision is itself. *)
Lemma div_int16_by_one (raw : Z) :
Ints.in_int16 raw ->
let q := Float.div float (Float.of_Z float raw) (Float.of_Z float 1) in
Float.is_finite q = true /\ (Float.to_Q q == raw # 1)%Q.
Proof.
intros [Hlo Hhi]. unfold Ints.INT16_MIN, Ints.INT16_MAX in *.
change (Float.of_Z float 1) with (S754_finite false 8388608 (-23)).
unfold Float.div, Float.of_Z, float, Float.binary32, Float.prec, Float.emax.
assert (Hmain : forall s p, Z.pos p <= 32768 ->
  let q := SFdiv 24 128 (binary_round 24 128 s p 0)
             (S754_finite false 8388608 (-23)) in
  Float.is_finite q = true /\
  (Float.to_Q q == (if s then Z.neg p else Z.pos p) # 1)%Q).
{ intros s p Hp.
  pose proof (FloatFacts.digits2_small p 16 ltac:(lia) ltac:(lia)) as Hd.
  destruct (FloatFacts.round_integer s p ltac:(lia)) as (q & Hq & ->).
  cbv zeta. rewrite FloatFacts.div_by_pow2.
  2:{ rewrite FloatFacts.digits_iter_xO. lia. }
  2:{ lia. }
  split; [reflexivity|].
  replace (- Z.pos q - -23 - 23) with (Z.neg q) by lia.
  cbn [Float.to_Q]. unfold Qeq. cbn [Qnum Qden].
  rewrite Pos2Z.inj_pow.
  pose proof (FloatFacts.iter_xO_value p q) as Hv.
  destruct s.
  - change (Z.neg (Pos.iter xO p q)) with (- Z.pos (Pos.iter xO p q)).
    change (Z.neg p) with (- Z.pos p). rewrite Hv. ring.
  - rewrite Hv. ring. }
destruct raw as [|p|p].
- cbn. split; reflexivity.
- exact (Hmain false p ltac:(lia)).
- exact (Hmain true p ltac:(lia)).
Qed.

(** The chain of tests leaves 1 or the divisor of the last test that held. *)
Lemma accel_scale_cases {H : Header} (range : mpu6050_range_t) :
exists n,
  In n scales /\
  accel_scale range = Float.of_Z float (Z.pos n) /\
  (~ In range valid_ranges -> n = 1%positive).
Proof.
unfold accel_scale, scales, valid_ranges.
destruct (Z.eqb_spec range MPU6050_RANGE_2_G) as [E2|N2].
{ exists 16384%positive. cbn [In]. intuition congruence. }
destruct (Z.eqb_spec range MPU6050_RANGE_4_G) as [E4|N4].
{ exists 8192%positive. cbn [In]. intuition congruence. }
destruct (Z.eqb_spec range MPU6050_RANGE_8_G) as [E8|N8].
{ exists 4096%positive. cbn [In]. intuition congruence. }
destruct (Z.eqb_spec range MPU6050_RANGE_16_G) as [E16|N16].
{ exists 2048%positive. cbn [In]. intuition congruence. }
exists 1%positive. cbn [In]. intuition congruence.
Qed.

Lemma scaled_by_scale (n : positive) (raw : Z) :
In n scales -> Ints.in_int16 raw ->
scaled_by n raw (scale_accel raw (Float.of_Z float (Z.pos n))).
Proof.
intros Hin Hraw. split; [exact Hraw|]. split; [reflexivity|].
unfold scales in Hin. cbn [In] in Hin. unfold scale_accel.
destruct Hin as [E|[E|[E|[E|[E|[]]]]]]; subst n.
- exact (div_int16_by_one raw Hraw).
- exact (FloatFacts.div_int16_by_pow2 raw 11 Hraw ltac:(lia)).
- exact (FloatFacts.div_int16_by_pow2 raw 12 Hraw ltac:(lia)).
- exact (FloatFacts.div_int16_by_pow2 raw 13 Hraw ltac:(lia)).
- exact (FloatFacts.div_int16_by_pow2 raw 14 Hraw ltac:(lia)).
Qed.

(** X8: [read] never divides by zero.  Whatever values the header gives the
    four range constants, also when two of them coincide or when none is
    the value read back, the divisor [read] applies is 1, 2048, 4096, 8192
    or 16384, so that each acceleration is finite and is the raw number
    divided by it, exactly; it is 1 when the value read back is none of the
    four constants. *)
Theorem read_acceleration_any_header
{H : Header} {P : Platform} {T : Transport}
(w : World T) (addr : Z) (buffer : list Z) :
i2c_dev (drv w) = Some addr ->
answer_of addr MPU6050_ACCEL_OUT 14 w = Some buffer ->
exists w' n,
  read w = Ok tt w' /\
  In n scales /\
  scaled_by n (rawAccX (drv w')) (accX (drv w')) /\
  scaled_by n (rawAccY (drv w')) (accY (drv w')) /\
  scaled_by n (rawAccZ (drv w')) (accZ (drv w')) /\
  (~ In (range_read_back addr
           (sampled buffer (after_read addr MPU6050_ACCEL_OUT 14 w)))
        valid_ranges ->
   n = 1%positive).
Proof.
intros Hdev Hburst.
destruct (read_members w addr buffer Hdev Hburst)
  as (w' & Hrun & _ & _ & _ & _ & Hraw & Hscaled & _).
cbv zeta in Hscaled.
set (range := range_read_back addr
                (sampled buffer (after_read addr MPU6050_ACCEL_OUT 14 w))) in *.
destruct (accel_scale_cases range) as (n & Hin & Hscale & Hone).
exists w', n. split; [exact Hrun|]. split; [exact Hin|].
unfold raw_sample in Hraw. unfold scaled_sample in Hscaled.
inversion Hraw as [[Hx Hy Hz Ht Hgx Hgy Hgz]].
inversion Hscaled as [[Hax Hay Haz Hts Hsx Hsy Hsz]].
rewrite Hx, Hy, Hz, Hax, Hay, Haz, Hscale.
repeat split; try exact Hone;
  apply (scaled_by_scale n _ Hin (int16_range _)).
Qed.

Lemma read_acceleration_any_header_witness :
exists w' n,
  read (H := renumbered) (P := avr) (attached (Chip.mpu6050 0 cold_sample))
  = Ok tt w' /\
  In n scales /\
  scaled_by n (rawAccX (drv w')) (accX (drv w')) /\
  scaled_by n (rawAccY (drv w')) (accY (drv w')) /\
  scaled_by n (rawAccZ (drv w')) (accZ (drv w')) /\
  (~ In (range_read_back (H := renumbered) 0x69
           (sampled cold_sample
              (after_read 0x69 0x3B 14 (attached (Chip.mpu6050 0 cold_sample)))))
        (valid_ranges (H := renumbered)) ->
   n = 1%positive).
Proof.
apply (read_acceleration_any_header (H := renumbered) (P := avr)
         (attached (Chip.mpu6050 0 cold_sample)) 0x69 cold_sample).
- reflexivity.
- reflexivity.
Defined.

(** ** The descriptors *)
Module DescriptorFacts.
Import Descriptor.

Lemma firstn_repeat {A : Type} (a : A) (n m : nat) :
firstn n (repeat a m) = repeat a (Nat.min n m).
Proof.
revert m. induction n as [|n IH]; intros [|m]; cbn; try reflexivity.
rewrite IH. reflexivity.
Qed.

(** What [strncpy] and the assignment of the last character leave in an
    array of [S n] NULs. *)
Lemma name_written (label : String.string) (n : nat) :
store_char (strncpy (repeat NUL (S n)) label (S n - 1)) (S n - 1) NUL
= firstn n (String.list_ascii_of_string label ++ repeat NUL n) ++ [NUL].
Proof.
unfold store_char, strncpy. replace (S n - 1)%nat with n by lia.
set (l := String.list_ascii_of_string label ++ repeat NUL n).
assert (Hlen : length (firstn n l) = n).
{ rewrite length_firstn. unfold l. rewrite length_app, repeat_length.
  apply Nat.min_l. lia. }
rewrite firstn_app, Hlen, Nat.sub_diag, firstn_O, app_nil_r.
rewrite firstn_all2 by lia.
rewrite skipn_app, Hlen.
rewrite (skipn_all2 (firstn n l)) by lia.
replace (S n - n)%nat with 1%nat by lia.
cbn [app]. rewrite (skipn_all2 (n := 1)) by (rewrite length_skipn, repeat_length; lia).
reflexivity.
Qed.

Lemma c_str_padded (l : list Ascii.ascii) :
Forall (fun c => c <> NUL) l ->
forall n m, c_str (firstn n (l ++ repeat NUL m) ++ [NUL]) = firstn n l.
Proof.
induction 1 as [|c l Hc Hl IH]; intros n m.
- cbn [app]. rewrite firstn_repeat, firstn_nil.
  destruct (Nat.min n m); reflexivity.
- destruct n as [|n]; [reflexivity|].
  cbn [app firstn c_str].
  destruct (Ascii.eqb_spec c NUL) as [E|_]; [contradiction|].
  rewrite IH. reflexivity.
Qed.

Lemma written_describes {F : Framework} (label : String.string) (id : Z)
  (tag : sensors_type_t) (zero1 zero2 zero3 : spec_float) :
Forall (fun c => c <> NUL) (String.list_ascii_of_string label) ->
zero1 = Float.zero -> zero2 = Float.zero -> zero3 = Float.zero ->
describes label id tag
  (with_resolution zero3
     (with_min_value zero2
        (with_max_value zero1
           (with_min_delay 0
              (with_type tag
                 (with_sensor_id id
                    (with_version 1
                       (with_name
                          (store_char
                             (name (with_name
                                      (strncpy (name memset_zero) label
                                         (sizeof_name - 1))
                                      memset_zero))
                             (sizeof_name - 1) NUL)
                          (with_name
                             (strncpy (name memset_zero) label
                                (sizeof_name - 1))
                             memset_zero))))))))).
Proof.
intros Hlabel -> -> ->. unfold describes.
cbn [with_resolution with_min_value with_max_value with_min_delay with_type
     with_sensor_id with_version with_name name version sensor_id type
     max_value min_value resolution min_delay memset_zero].
unfold sizeof_name. rewrite name_written.
repeat split.
- rewrite length_app, length_firstn, length_app, repeat_length. cbn. lia.
- rewrite app_nth2; rewrite length_firstn, length_app, repeat_length.
  + replace (name_last - Nat.min name_last _)%nat with 0%nat by lia.
    reflexivity.
  + lia.
- apply c_str_padded. exact Hlabel.
Qed.

(** A label that fits is there whole. *)
Lemma describes_whole {F : Framework} (label : String.string) (id : Z)
  (tag : sensors_type_t) (s : sensor_t) :
describes label id tag s ->
(length (String.list_ascii_of_string label) <= name_last)%nat ->
c_str (name s) = String.list_ascii_of_string label.
Proof.
intros (_ & _ & -> & _) Hfit. apply firstn_all2. exact Hfit.
Qed.
Import String.

(** The three labels are strings of C: no NUL inside. *)
Lemma label_has_no_NUL (label : string) :
In label ["MPU6050_A"%string; "MPU6050_G"%string; "MPU6050_T"%string] ->
Forall (fun c => c <> NUL) (list_ascii_of_string label).
Proof.
intros [<-|[<-|[<-|[]]]]; repeat constructor; discriminate.
Qed.

End DescriptorFacts.

Section DescriptorTheorems.

Import String.
Local Open Scope string_scope.

(** X9: whatever the size of the array [name], [getSensor] returns, leaves
    the driver and the bus as they are, and gives each descriptor a name
    that fills the array, ends with a NUL and reads as the label of the
    channel ("MPU6050_A", "MPU6050_G", "MPU6050_T") cut to what fits before
    that NUL, so as the whole label when the array has 10 characters or
    more; the version is 1, the identifier and the type tag are those of
    the channel, and the delay, the range and the resolution are zero. *)
Theorem getSensor_describes
{F : Framework} {T : Transport} (w : World T) :
exists accel gyro_d temp,
  getSensor w = Ok (accel, gyro_d, temp) w /\
  describes "MPU6050_A" (_sensorid_accel (drv w)) SENSOR_TYPE_ACCELEROMETER accel /\
  describes "MPU6050_G" (_sensorid_gyro (drv w)) SENSOR_TYPE_GYROSCOPE gyro_d /\
  describes "MPU6050_T" (_sensorid_temp (drv w)) SENSOR_TYPE_AMBIENT_TEMPERATURE temp /\
  ((9 <= name_last)%nat ->
   c_str (Descriptor.name accel) = String.list_ascii_of_string "MPU6050_A" /\
   c_str (Descriptor.name gyro_d) = String.list_ascii_of_string "MPU6050_G" /\
   c_str (Descriptor.name temp) = String.list_ascii_of_string "MPU6050_T").
Proof.
unfold getSensor, bind, this, ret. cbv zeta.
do 3 eexists. split; [reflexivity|].
split; [apply DescriptorFacts.written_describes;
        [apply DescriptorFacts.label_has_no_NUL; cbn; auto|reflexivity..]|].
split; [apply DescriptorFacts.written_describes;
        [apply DescriptorFacts.label_has_no_NUL; cbn; auto|reflexivity..]|].
split; [apply DescriptorFacts.written_describes;
        [apply DescriptorFacts.label_has_no_NUL; cbn; auto|reflexivity..]|].
intros Hfit.
repeat split;
  (eapply DescriptorFacts.describes_whole;
   [apply DescriptorFacts.written_describes;
    [apply DescriptorFacts.label_has_no_NUL; cbn; auto|reflexivity..]
   |cbn; exact Hfit]).
Qed.

(** With the array of 12 characters of the unified sensor framework each
    name is the whole label and three NULs. *)
Example getSensor_names_fit {T : Transport} (w : World T) :
exists accel gyro_d temp,
  getSensor (F := unified_sensor) w = Ok (accel, gyro_d, temp) w /\
  Descriptor.name accel
  = (list_ascii_of_string "MPU6050_A" ++ repeat Descriptor.NUL 3)%list /\
  Descriptor.name gyro_d
  = (list_ascii_of_string "MPU6050_G" ++ repeat Descriptor.NUL 3)%list /\
  Descriptor.name temp
  = (list_ascii_of_string "MPU6050_T" ++ repeat Descriptor.NUL 3)%list.
Proof.
do 3 eexists. split; [reflexivity|]. repeat split.
Qed.

End DescriptorTheorems.

(** X10: the descriptor and the event of a channel agree.  In every world,
    what [getSensor] and [getEvent] return for the accelerometer, for the
    gyroscope and for the temperature carry the same identifier and the
    same type tag, the three tags differ, and neither function changes the
    driver, the bus or its record. *)
Theorem getSensor_agrees_with_getEvent
{F : Framework} {P : Platform} {T : Transport} (w : World T) :
exists accel gyro_d temp accel_e gyro_e temp_e,
  getSensor w = Ok (accel, gyro_d, temp) w /\
  getEvent w = Ok (true, (accel_e, gyro_e, temp_e)) w /\
  Descriptor.sensor_id accel = sensor_id accel_e /\
  Descriptor.sensor_id gyro_d = sensor_id gyro_e /\
  Descriptor.sensor_id temp = sensor_id temp_e /\
  Descriptor.type accel = Some (type accel_e) /\
  Descriptor.type gyro_d = Some (type gyro_e) /\
  Descriptor.type temp = Some (type temp_e) /\
  type accel_e <> type gyro_e /\
  type gyro_e <> type temp_e /\
  type accel_e <> type temp_e.
Proof.
do 6 eexists. split; [reflexivity|]. split; [apply getEvent_run|].
repeat split; discriminate.
Qed.

(** ** The rates, on every 16-bit raw value *)
Module GyroFacts.
Import Gyro.

(** Rounding commutes with the change of sign. *)
Lemma round_aux_opp prec emax s m e l :
binary_round_aux prec emax (negb s) m e l
= SFopp (binary_round_aux prec emax s m e l).
Proof.
unfold binary_round_aux.
destruct (shr_fexp prec emax m e l) as [mrs' e'].
destruct (shr_fexp prec emax _ e' loc_Exact) as [mrs'' e''].
destruct (shr_m mrs''); try reflexivity.
destruct (e'' <=? emax - prec); reflexivity.
Qed.

Lemma convert_opp (f : Float.format) (x : spec_float) :
Float.convert f (SFopp x) = SFopp (Float.convert f x).
Proof.
destruct x as [s|s| |s m e]; try reflexivity.
cbn [SFopp Float.convert]. unfold binary_round.
destruct (shl_align m e _) as [mz ez]. apply round_aux_opp.
Qed.

Lemma of_Z_opp (f : Float.format) (n : Z) :
n <> 0 -> Float.of_Z f (- n) = SFopp (Float.of_Z f n).
Proof.
intros Hn. unfold Float.of_Z.
destruct n as [|p|p]; [contradiction| |]; cbn [Z.opp binary_normalize].
- apply (convert_opp f (S754_finite false p 0)).
- change (binary_round (Float.prec f) (Float.emax f) true p 0)
    with (Float.convert f (S754_finite true p 0)).
  rewrite <- (convert_opp f (S754_finite true p 0)). reflexivity.
Qed.

Lemma div_opp (f : Float.format) (x y : spec_float) :
Float.div f (SFopp x) y = SFopp (Float.div f x y).
Proof.
unfold Float.div.
destruct x as [sx|sx| |sx mx ex], y as [sy|sy| |sy my ey];
  cbn [SFopp SFdiv]; rewrite <- ?negb_xorb_l; try reflexivity.
destruct (SFdiv_core_binary _ _ _ _ _ _) as [[mz ez] lz].
apply round_aux_opp.
Qed.

Lemma in_format_opp (D : Float.format) (c : spec_float) (raw : Z) :
raw <> 0 -> in_format D c (- raw) = SFopp (in_format D c raw).
Proof.
intros Hraw. unfold in_format.
rewrite of_Z_opp, !convert_opp, div_opp, convert_opp by exact Hraw.
reflexivity.
Qed.

Lemma to_Q_opp (x : spec_float) : Float.to_Q (SFopp x) = Qopp (Float.to_Q x).
Proof.
destruct x as [s|s| |s m e]; try reflexivity.
cbn [SFopp Float.to_Q]. unfold Qopp.
destruct e as [|p|p], s; cbn [negb Qnum Qden]; f_equal; lia.
Qed.

Lemma near_opp (x : spec_float) (n : Z) (d : positive) (eps : Q) :
Temperature.near (SFopp x) (- n) d eps = Temperature.near x n d eps.
Proof.
unfold Temperature.near. f_equal.
- destruct x; reflexivity.
- rewrite to_Q_opp. apply Qleb_comp; [|reflexivity].
  rewrite <- (Qabs_opp (Float.to_Q x - (n # d))).
  apply Qabs_wd. unfold Qeq, Qminus, Qplus, Qopp. cbn [Qnum Qden]. ring.
Qed.

(** A 16-bit integer converted to single precision and then to double
    precision is the integer converted to double precision. *)
Lemma round_shifted prec emax s p q :
fexp prec emax (Z.pos (digits2_pos p)) < - Z.pos q ->
binary_round prec emax s (Pos.iter xO p q) (- Z.pos q)
= binary_round prec emax s p 0.
Proof.
intros He. unfold binary_round.
rewrite FloatFacts.digits_iter_xO.
replace (Z.pos (digits2_pos p + q) + - Z.pos q)
  with (Z.pos (digits2_pos p)) by lia.
rewrite Z.add_0_r.
set (e' := fexp prec emax (Z.pos (digits2_pos p))) in *.
unfold shl_align.
destruct (e' - - Z.pos q) as [|d1|d1] eqn:E1; try lia.
destruct (e' - 0) as [|d2|d2] eqn:E2; try lia.
assert (Hd : d2 = (d1 + q)%positive) by lia.
rewrite Hd, Pos.iter_add. reflexivity.
Qed.

Lemma widen_int16 (raw : Z) :
- 32768 <= raw <= 32768 ->
Float.convert Float.binary64 (Float.of_Z float raw)
= Float.of_Z Float.binary64 raw.
Proof.
intros [Hlo Hhi].
assert (Hmain : forall s p, Z.pos p <= 32768 ->
  Float.convert Float.binary64 (binary_round 24 128 s p 0)
  = binary_round 53 1024 s p 0).
{ intros s p Hp.
  pose proof (FloatFacts.digits2_small p 16 ltac:(lia) ltac:(lia)) as Hd.
  destruct (FloatFacts.round_integer s p ltac:(lia)) as (q & Hq & ->).
  cbn [Float.convert Float.prec Float.emax Float.binary64].
  apply round_shifted. unfold fexp, emin. lia. }
unfold Float.of_Z, float, Float.binary32, Float.binary64, Float.prec, Float.emax.
destruct raw as [|p|p]; cbn [binary_normalize].
- reflexivity.
- exact (Hmain false p ltac:(lia)).
- exact (Hmain true p ltac:(lia)).
Qed.

Lemma literal_binary32 : Float.literal Float.binary32 655 10 = divisor32.
Proof. vm_compute. reflexivity. Qed.

Lemma literal_binary64 :
Float.literal Float.binary64 655 10 = FloatOps.Prim2SF divisor64.
Proof. vm_compute. reflexivity. Qed.

Lemma gyro_in_binary64_spec (c : PrimFloat.float) (raw : Z) :
- 32768 <= raw <= 32768 ->
in_format Float.binary64 (FloatOps.Prim2SF c) raw = in_binary64 c raw.
Proof.
intros Hraw. unfold in_format, in_binary64.
rewrite FloatAxioms.div_spec, widen_int16 by exact Hraw.
rewrite TemperatureFacts.prim_of_int_spec.
- reflexivity.
- change (2 ^ 62) with 4611686018427387904. lia.
Qed.

Lemma forall_magnitude_spec (p : Z -> bool) :
forall_magnitude p = true -> forall v, 0 <= v <= 32768 -> p v = true.
Proof.
unfold forall_magnitude. intros Hall v Hv.
apply andb_prop in Hall as [Hall Htop].
destruct (Z.eq_dec v 32768) as [->|Hne]; [exact Htop|].
pose proof (Z.div_mod v 256 ltac:(lia)) as Hdm.
pose proof (Z.mod_pos_bound v 256 ltac:(lia)) as Hm.
assert (Hq : 0 <= v / 256 < 128).
{ split; [apply Z.div_pos; lia|apply Z.div_lt_upper_bound; lia]. }
pose proof (forall_below_spec _ 128 Hall (v / 256) ltac:(lia)) as Hrow.
cbv beta in Hrow.
pose proof (forall_below_spec _ 256 Hrow (v mod 256) ltac:(lia)) as Hcell.
cbv beta in Hcell. rewrite <- Hdm in Hcell. exact Hcell.
Qed.

(** Either computation is within half a unit in the last place of the
    rational, on each magnitude. *)
Lemma gyro_ok_binary32_holds : forall_magnitude ok_binary32 = true.
Proof. vm_cast_no_check (eq_refl true). Qed.

Lemma gyro_ok_binary64_holds : forall_magnitude ok_binary64 = true.
Proof. vm_cast_no_check (eq_refl true). Qed.

(** From the magnitudes to every 16-bit value, by the symmetry. *)
Lemma near_by_symmetry (D : Float.format) (c : spec_float) :
(forall v, 0 <= v <= 32768 ->
   Temperature.near (in_format D c v) (2 * v) 131 half_ulp = true) ->
forall raw, Ints.in_int16 raw ->
  Temperature.near (in_format D c raw) (2 * raw) 131 half_ulp = true.
Proof.
intros Hall raw [Hlo Hhi]. unfold Ints.INT16_MIN, Ints.INT16_MAX in *.
destruct (Z.le_gt_cases 0 raw) as [Hpos|Hneg]; [apply Hall; lia|].
replace raw with (- - raw) by lia.
rewrite in_format_opp by lia.
replace (2 * - - raw) with (- (2 * - raw)) by lia.
rewrite near_opp. apply Hall. lia.
Qed.

End GyroFacts.

Lemma scale_gyro_near {P : Platform} (raw : Z) :
double_is_ieee -> Ints.in_int16 raw ->
Temperature.near (scale_gyro raw) (2 * raw) 131 Gyro.half_ulp = true.
Proof.
intros Hdouble Hraw.
change (scale_gyro raw) with
  (Gyro.in_format double (Float.literal double 655 10) raw).
destruct Hdouble as [-> | ->].
- rewrite GyroFacts.literal_binary32.
  apply GyroFacts.near_by_symmetry; [|exact Hraw].
  exact (GyroFacts.forall_magnitude_spec Gyro.ok_binary32
           GyroFacts.gyro_ok_binary32_holds).
- rewrite GyroFacts.literal_binary64.
  apply GyroFacts.near_by_symmetry; [|exact Hraw].
  intros v Hv. rewrite GyroFacts.gyro_in_binary64_spec.
  + exact (GyroFacts.forall_magnitude_spec Gyro.ok_binary64
             GyroFacts.gyro_ok_binary64_holds v Hv).
  + lia.
Qed.

Lemma near_within (q : spec_float) (n : Z) (d : positive) (eps : Q) :
Temperature.near q n d eps = true -> within q n d eps.
Proof.
unfold Temperature.near, within. intros Hnear.
apply andb_prop in Hnear as [Hfin Hle].
split; [exact Hfin|]. apply Qle_bool_iff. exact Hle.
Qed.

(** Three values the division by 65.5 gives exactly: 0, 2 and the full
    scale of 500 degrees per second. *)
Lemma scale_gyro_points {P : Platform} :
double_is_ieee ->
scale_gyro 0 = Float.zero /\
scale_gyro 131 = S754_finite false 8388608 (-22) /\
scale_gyro 32750 = S754_finite false 16384000 (-15).
Proof.
intros Hdouble.
change (scale_gyro 0) with
  (Gyro.in_format double (Float.literal double 655 10) 0).
change (scale_gyro 131) with
  (Gyro.in_format double (Float.literal double 655 10) 131).
change (scale_gyro 32750) with
  (Gyro.in_format double (Float.literal double 655 10) 32750).
destruct Hdouble as [-> | ->]; repeat split; vm_compute; reflexivity.
Qed.

(** X11: when the burst read delivers its 14 bytes, [read] returns and each
    rate it stores is the raw rate divided by [65.5] as the source computes
    it, in [double] from the [float] of the raw value and stored in a
    [float]: a finite number within half a unit in the last place (2^-16)
    of the rational [raw / 65.5], for either width of [double].  Raw 0
    gives zero, raw 131 gives 2 and raw 32750 gives 500, exactly. *)
Theorem read_scales_gyro
{H : Header} {P : Platform} {T : Transport}
(w : World T) (addr : Z) (buffer : list Z) :
double_is_ieee ->
i2c_dev (drv w) = Some addr ->
answer_of addr MPU6050_ACCEL_OUT 14 w = Some buffer ->
exists w',
  read w = Ok tt w' /\
  rate_of (rawGyroX (drv w')) (gyroX (drv w')) /\
  rate_of (rawGyroY (drv w')) (gyroY (drv w')) /\
  rate_of (rawGyroZ (drv w')) (gyroZ (drv w')) /\
  scale_gyro 0 = Float.zero /\
  (Float.to_Q (scale_gyro 131) == 2)%Q /\
  (Float.to_Q (scale_gyro 32750) == 500)%Q.
Proof.
intros Hdouble Hdev Hburst.
destruct (read_members w addr buffer Hdev Hburst)
  as (w' & Hrun & _ & _ & _ & _ & Hraw & Hscaled & _).
cbv zeta in Hscaled.
unfold raw_sample in Hraw. unfold scaled_sample in Hscaled.
inversion Hraw as [[Hx Hy Hz Ht Hgx Hgy Hgz]].
inversion Hscaled as [[Hax Hay Haz Hts Hsx Hsy Hsz]].
exists w'. split; [exact Hrun|].
assert (Hrate : forall raw, Ints.in_int16 raw -> rate_of raw (scale_gyro raw)).
{ intros raw Hin. split; [exact Hin|]. split; [reflexivity|].
  apply near_within. apply scale_gyro_near; assumption. }
destruct (scale_gyro_points Hdouble) as (Hzero & Htwo & Hfull).
rewrite Hgx, Hgy, Hgz, Hsx, Hsy, Hsz, Htwo, Hfull.
repeat split; try (apply Hrate; apply int16_range); try exact Hzero;
  reflexivity.
Qed.

Lemma read_scales_gyro_witness :
exists w',
  read (H := datasheet) (P := arm) (attached (Chip.mpu6050 0 cold_sample))
  = Ok tt w' /\
  rate_of (P := arm) (rawGyroX (drv w')) (gyroX (drv w')) /\
  rate_of (P := arm) (rawGyroY (drv w')) (gyroY (drv w')) /\
  rate_of (P := arm) (rawGyroZ (drv w')) (gyroZ (drv w')) /\
  scale_gyro (P := arm) 0 = Float.zero /\
  (Float.to_Q (scale_gyro (P := arm) 131) == 2)%Q /\
  (Float.to_Q (scale_gyro (P := arm) 32750) == 500)%Q.
Proof.
apply (read_scales_gyro (H := datasheet) (P := arm)
         (attached (Chip.mpu6050 0 cold_sample)) 0x69 cold_sample).
- right. reflexivity.
- reflexivity.
- reflexivity.
Defined.

(** X12: the scaling of the rates is odd.  In whatever format [double] is,
    opposite raw values give opposite rates, bit for bit; only raw 0, whose
    rate is the positive zero, has no opposite. *)
Theorem scale_gyro_is_odd {P : Platform} (raw : Z) :
raw <> 0 ->
scale_gyro (- raw) = SFopp (scale_gyro raw).
Proof.
intros Hraw.
exact (GyroFacts.in_format_opp double (Float.literal double 655 10) raw Hraw).
Qed.

Lemma scale_gyro_is_odd_witness :
scale_gyro (P := arm) (- 655) = SFopp (scale_gyro (P := arm) 655).
Proof.
apply (scale_gyro_is_odd (P := arm) 655). discriminate.
Defined.

(** X13: from the bytes on the bus to the events.  After a [read] whose
    burst was delivered, [getEvent] gives the rate of each axis within 2^-16
    of the two's complement number at offsets 8, 10 and 12 of the burst,
    the most significant byte first, divided by 65.5, and the temperature
    within 2^-17 of the number at offset 6 plus 12412, divided by 340. *)
Theorem read_then_getEvent
{H : Header} {P : Platform} {T : Transport}
(w : World T) (addr : Z) (buffer : list Z) :
double_is_ieee ->
i2c_dev (drv w) = Some addr ->
answer_of addr MPU6050_ACCEL_OUT 14 w = Some buffer ->
let word i := signed16 (big_endian (nth i buffer 0) (nth (S i) buffer 0)) in
exists w' accel_e gyro_e temp_e rate t,
  read w = Ok tt w' /\
  getEvent w' = Ok (true, (accel_e, gyro_e, temp_e)) w' /\
  payload gyro_e = gyro rate /\
  payload temp_e = temperature_payload t /\
  within (x rate) (2 * word 8%nat) 131 (1 # 65536) /\
  within (y rate) (2 * word 10%nat) 131 (1 # 65536) /\
  within (z rate) (2 * word 12%nat) 131 (1 # 65536) /\
  within t (word 6%nat + 12412) 340 (1 # 131072).
Proof.
intros Hdouble Hdev Hburst word.
destruct (read_members w addr buffer Hdev Hburst)
  as (w' & Hrun & _ & _ & _ & _ & Hraw & Hscaled & _).
cbv zeta in Hscaled.
destruct (answer_bytes _ _ _ _ _ Hburst) as [_ Hbytes].
unfold scaled_sample in Hscaled.
inversion Hscaled as [[Hax Hay Haz Hts Hsx Hsy Hsz]].
exists w', (accel_event (drv w')), (gyro_event (drv w')), (temp_event (drv w')).
do 2 eexists. split; [exact Hrun|]. split; [apply getEvent_run|].
split; [reflexivity|]. split; [reflexivity|].
cbn [x y z]. rewrite Hts, Hsx, Hsy, Hsz.
rewrite !be16_decodes by (apply nth_is_byte; exact Hbytes).
fold (word 6%nat). fold (word 8%nat). fold (word 10%nat). fold (word 12%nat).
assert (Hword : forall i, Ints.in_int16 (word i)).
{ intros i. unfold word.
  rewrite <- be16_decodes by (apply nth_is_byte; exact Hbytes).
  apply int16_range. }
split; [exact (near_within _ _ _ _ (scale_gyro_near _ Hdouble (Hword 8%nat)))|].
split; [exact (near_within _ _ _ _ (scale_gyro_near _ Hdouble (Hword 10%nat)))|].
split; [exact (near_within _ _ _ _ (scale_gyro_near _ Hdouble (Hword 12%nat)))|].
exact (near_within _ _ _ _ (scale_temperature_near _ Hdouble (Hword 6%nat))).
Qed.

Lemma read_then_getEvent_witness :
exists w' accel_e gyro_e temp_e rate t,
  read (H := datasheet) (P := arm) (attached (Chip.mpu6050 0 cold_sample))
  = Ok tt w' /\
  getEvent (P := arm) w' = Ok (true, (accel_e, gyro_e, temp_e)) w' /\
  payload gyro_e = gyro rate /\
  payload temp_e = temperature_payload t /\
  within (x rate) (2 * 1) 131 (1 # 65536) /\
  within (y rate) (2 * -1) 131 (1 # 65536) /\
  within (z rate) (2 * -32768) 131 (1 # 65536) /\
  within t (-12412 + 12412) 340 (1 # 131072).
Proof.
apply (read_then_getEvent (H := datasheet) (P := arm)
         (attached (Chip.mpu6050 0 cold_sample)) 0x69 cold_sample).
- right. reflexivity.
- reflexivity.
- reflexivity.
Defined.
